(** * visualize_board: cube-coordinate geometry and node-label rendering

    A shallow embedding of [src/visualize_board.py].

    Modelling conventions.
    - Python [int] is [Z]; Python [float] is idealised as a real number [R]:
      [np.sqrt], [np.cos], [np.sin] and [np.pi] are [sqrt], [cos], [sin] and
      [PI] of the Standard Library, and all arithmetic is exact.  IEEE-754
      rounding is outside this model; where it decides a property, module
      [Float64] gives the same geometry on binary64 numbers.
    - Python [str] is [string]; the members of [TileTemplate] and [NodeRef]
      are the string constants the classes hold.
    - A Python [dict] is an insertion-ordered association list with unique
      keys ([dict_set] overwrites in place or appends).
    - A raised exception is the left injection of [Result]; code that can
      raise lives in the [Result] monad.
    - Calls into matplotlib ([ax.add_patch], [ax.text], ...) are recorded,
      in program order, as a list of [DrawCall]s. *)

From Stdlib Require Import ZArith List String Ascii Bool Arith Lia.
From Stdlib Require Import Reals Lra.
From Stdlib Require PrimFloat Uint63.
From Stdlib Require Import DecimalString.
Import ListNotations.

Local Open Scope string_scope.
Local Open Scope list_scope.

(* ================================================================= *)
(** ** Exceptions and the [Result] monad *)

Inductive PyError : Type :=
| AssertionError (msg : string)
| KeyError (key : string)
| IndexError
| ZeroDivisionError.

Definition Result (A : Type) : Type := (PyError + A)%type.

Definition ret {A} (a : A) : Result A := inr a.
Definition raise {A} (e : PyError) : Result A := inl e.

Definition bind {A B} (m : Result A) (k : A -> Result B) : Result B :=
  match m with
  | inl e => inl e
  | inr a => k a
  end.

Notation "x <- m ;; k" := (bind m (fun x => k))
  (at level 61, m at next level, right associativity).
Notation "' pat <- m ;; k" := (bind m (fun x => match x with pat => k end))
  (at level 61, pat pattern, m at next level, right associativity).

(** A [for] loop whose body may raise: the state is threaded left to
    right and the first exception aborts the loop. *)
Fixpoint for_in {A S} (items : list A) (body : S -> A -> Result S) (s : S)
  : Result S :=
  match items with
  | [] => ret s
  | a :: rest => s' <- body s a ;; for_in rest body s'
  end.

(** [sequence[i]] for a non-negative index. *)
Definition list_getitem {A} (l : list A) (i : nat) : Result A :=
  match nth_error l i with
  | Some a => ret a
  | None => raise IndexError
  end.

(** [enumerate(sequence)]. *)
Definition enumerate {A} (l : list A) : list (nat * A) :=
  combine (seq 0 (List.length l)) l.

(* ================================================================= *)
(** ** Python dictionaries *)

Section PyDict.
Context {K V : Type}.
Variable keq : K -> K -> bool.

Definition Dict : Type := list (K * V).

Fixpoint dict_get (d : Dict) (k : K) : option V :=
  match d with
  | [] => None
  | (k', v) :: rest => if keq k k' then Some v else dict_get rest k
  end.

(** [d[k] = v]: an existing key keeps its place, a new key goes last. *)
Fixpoint dict_set (d : Dict) (k : K) (v : V) : Dict :=
  match d with
  | [] => [(k, v)]
  | (k', v') :: rest =>
      if keq k k' then (k', v) :: rest else (k', v') :: dict_set rest k v
  end.

(** [k in d]. *)
Definition dict_contains (d : Dict) (k : K) : bool :=
  match dict_get d k with
  | Some _ => true
  | None => false
  end.

(** A dictionary display [{k1: v1, k2: v2, ...}]: entries are stored in
    the order written, a repeated key keeping its last value. *)
Definition dict_of_list (entries : list (K * V)) : Dict :=
  fold_left (fun d kv => dict_set d (fst kv) (snd kv)) entries [].

Definition dict_keys (d : Dict) : list K := map fst d.
End PyDict.

Arguments Dict : clear implicits.

(** [d[k]] on a dictionary with string keys. *)
Definition str_getitem {V} (d : Dict string V) (k : string) : Result V :=
  match dict_get String.eqb d k with
  | Some v => ret v
  | None => raise (KeyError k)
  end.

(* ================================================================= *)
(** ** Data model *)

Record CubeCoord : Type := MkCubeCoord { cube_x : Z; cube_y : Z; cube_z : Z }.

(** [CubeCoord(x, y, z)]: the dataclass constructor followed by
    [__post_init__]. *)
Definition CubeCoord_new (x y z : Z) : Result CubeCoord :=
  if (x + y + z =? 0)%Z
  then ret (MkCubeCoord x y z)
  else raise (AssertionError "Cube coordinates must sum to zero").

Module TileTemplate.
Definition LAND : string := "Land".
Definition WATER : string := "Water".
Definition PORT : string := "Port".
End TileTemplate.

Module NodeRef.
Definition North : string := "North".
Definition NorthEast : string := "NorthEast".
Definition SouthEast : string := "SouthEast".
Definition South : string := "South".
Definition SouthWest : string := "SouthWest".
Definition NorthWest : string := "NorthWest".
End NodeRef.

Definition Point : Type := (R * R)%type.

(* ================================================================= *)
(** ** Geometry *)

Section Geometry.
Local Open Scope R_scope.

Definition cube_to_pixel (cube : CubeCoord) (size : R) : Point :=
  let x := size * (sqrt 3 * IZR (cube_x cube) + sqrt 3 / 2 * IZR (cube_z cube)) in
  let y := size * (3 / 2 * IZR (cube_z cube)) in
  (x, y).

Definition node_order : list string :=
  [ NodeRef.North; NodeRef.NorthEast; NodeRef.SouthEast;
    NodeRef.South; NodeRef.SouthWest; NodeRef.NorthWest ].

Definition node_angles : Dict string R :=
  dict_of_list String.eqb
    [ (NodeRef.North, - PI / 2);
      (NodeRef.NorthEast, - PI / 6);
      (NodeRef.SouthEast, PI / 6);
      (NodeRef.South, PI / 2);
      (NodeRef.SouthWest, 5 * PI / 6);
      (NodeRef.NorthWest, -5 * PI / 6) ].

Definition hexagon_corners (center_x center_y size : R) : Result (list Point) :=
  for_in node_order
    (fun corners node =>
       angle <- str_getitem node_angles node ;;
       let x := center_x + size * cos angle in
       let y := center_y + size * sin angle in
       ret (corners ++ [(x, y)]))
    [].

Definition node_map : Dict string nat :=
  dict_of_list String.eqb (map (fun ir => (snd ir, fst ir)) (enumerate node_order)).

Definition get_node_position (center_x center_y size : R) (node_ref : string)
  : Result Point :=
  corners <- hexagon_corners center_x center_y size ;;
  idx <- str_getitem node_map node_ref ;;
  list_getitem corners idx.

(** Euclidean distance between two points. *)
Definition dist (p q : Point) : R :=
  sqrt (Rsqr (fst p - fst q) + Rsqr (snd p - snd q)).

(** The point at polar offset (radius [r], angle [theta]) from [c]. *)
Definition polar (c : Point) (r theta : R) : Point :=
  (fst c + r * cos theta, snd c + r * sin theta).

(** The angle the specification assigns to corner [k]. *)
Definition corner_angle (k : nat) : R := - PI / 2 + INR k * PI / 3.
End Geometry.

(* ================================================================= *)
(** ** The graphics collaborator *)

(** One constructor per matplotlib call the script makes; the arguments
    are the ones the script passes. *)
Inductive DrawCall : Type :=
| Subplots (width height : Z)
| SetAspect (mode : string)
| AxisOff
| AddPolygon (corners : list Point) (facecolor edgecolor : string)
             (linewidth alpha : R)
| AddCircle (center : Point) (radius : R) (facecolor edgecolor : string)
            (linewidth : R) (zorder : Z)
| AxText (x y : R) (s : string) (fontsize : Z) (zorder : option Z)
         (axes_coords : bool)
| SetXlim (lo hi : R)
| SetYlim (lo hi : R)
| SetTitle (s : string) (fontsize : Z)
| AddLegend (handles : list (string * string))
| TightLayout
| Savefig (filename : string) (dpi : Z)
| PrintLine (s : string)
| Close.

(** Truth value of an optional string ([None] and the empty string are
    false). *)
Definition str_truthy (s : option string) : bool :=
  match s with
  | Some (String _ _) => true
  | _ => false
  end.

Definition draw_hexagon (ax : list DrawCall) (center_x center_y size : R)
    (color edgecolor : string) (linewidth alpha : R) (label : option string)
  : Result (list DrawCall) :=
  corners <- hexagon_corners center_x center_y size ;;
  let ax := ax ++ [AddPolygon corners color edgecolor linewidth alpha] in
  if str_truthy label
  then ret (ax ++ [AxText center_x center_y
                     (match label with Some l => l | None => EmptyString end)
                     8 None false])
  else ret ax.

(* ================================================================= *)
(** ** Static tables *)

Definition NodeKey : Type := ((Z * Z * Z) * string)%type.

(** Equality of [((x, y, z), node_ref)] tuples. *)
Definition NodeKey_eqb (a b : NodeKey) : bool :=
  let '((ax, ay, az), ar) := a in
  let '((bx, by_, bz), br) := b in
  ((ax =? bx) && (ay =? by_) && (az =? bz))%Z && String.eqb ar br.

Definition MINI_TOPOLOGY : list ((Z * Z * Z) * string) :=
  [
    ((0, 0, 0), TileTemplate.LAND);
    ((1, (-1), 0), TileTemplate.LAND);
    ((0, (-1), 1), TileTemplate.LAND);
    (((-1), 0, 1), TileTemplate.LAND);
    (((-1), 1, 0), TileTemplate.LAND);
    ((0, 1, (-1)), TileTemplate.LAND);
    ((1, 0, (-1)), TileTemplate.LAND);
    ((2, (-2), 0), TileTemplate.WATER);
    ((1, (-2), 1), TileTemplate.WATER);
    ((0, (-2), 2), TileTemplate.WATER);
    (((-1), (-1), 2), TileTemplate.WATER);
    (((-2), 0, 2), TileTemplate.WATER);
    (((-2), 1, 1), TileTemplate.WATER);
    (((-2), 2, 0), TileTemplate.WATER);
    (((-1), 2, (-1)), TileTemplate.WATER);
    ((0, 2, (-2)), TileTemplate.WATER);
    ((1, 1, (-2)), TileTemplate.WATER);
    ((2, 0, (-2)), TileTemplate.WATER);
    ((2, (-1), (-1)), TileTemplate.WATER) ]%Z.

Definition MINI_NODE_IDS : Dict NodeKey Z :=
  dict_of_list NodeKey_eqb
  [
    ((((-2), 0, 2), NodeRef.North), 14);
    ((((-2), 0, 2), NodeRef.NorthEast), 13);
    ((((-2), 0, 2), NodeRef.NorthWest), 37);
    ((((-2), 0, 2), NodeRef.South), 35);
    ((((-2), 0, 2), NodeRef.SouthEast), 34);
    ((((-2), 0, 2), NodeRef.SouthWest), 36);
    ((((-2), 1, 1), NodeRef.North), 17);
    ((((-2), 1, 1), NodeRef.NorthEast), 15);
    ((((-2), 1, 1), NodeRef.NorthWest), 39);
    ((((-2), 1, 1), NodeRef.South), 37);
    ((((-2), 1, 1), NodeRef.SouthEast), 14);
    ((((-2), 1, 1), NodeRef.SouthWest), 38);
    ((((-2), 2, 0), NodeRef.North), 40);
    ((((-2), 2, 0), NodeRef.NorthEast), 18);
    ((((-2), 2, 0), NodeRef.NorthWest), 42);
    ((((-2), 2, 0), NodeRef.South), 39);
    ((((-2), 2, 0), NodeRef.SouthEast), 17);
    ((((-2), 2, 0), NodeRef.SouthWest), 41);
    ((((-1), (-1), 2), NodeRef.North), 12);
    ((((-1), (-1), 2), NodeRef.NorthEast), 11);
    ((((-1), (-1), 2), NodeRef.NorthWest), 13);
    ((((-1), (-1), 2), NodeRef.South), 33);
    ((((-1), (-1), 2), NodeRef.SouthEast), 32);
    ((((-1), (-1), 2), NodeRef.SouthWest), 34);
    ((((-1), 0, 1), NodeRef.North), 4);
    ((((-1), 0, 1), NodeRef.NorthEast), 3);
    ((((-1), 0, 1), NodeRef.NorthWest), 15);
    ((((-1), 0, 1), NodeRef.South), 13);
    ((((-1), 0, 1), NodeRef.SouthEast), 12);
    ((((-1), 0, 1), NodeRef.SouthWest), 14);
    ((((-1), 1, 0), NodeRef.North), 16);
    ((((-1), 1, 0), NodeRef.NorthEast), 5);
    ((((-1), 1, 0), NodeRef.NorthWest), 18);
    ((((-1), 1, 0), NodeRef.South), 15);
    ((((-1), 1, 0), NodeRef.SouthEast), 4);
    ((((-1), 1, 0), NodeRef.SouthWest), 17);
    ((((-1), 2, (-1)), NodeRef.North), 43);
    ((((-1), 2, (-1)), NodeRef.NorthEast), 21);
    ((((-1), 2, (-1)), NodeRef.NorthWest), 44);
    ((((-1), 2, (-1)), NodeRef.South), 18);
    ((((-1), 2, (-1)), NodeRef.SouthEast), 16);
    ((((-1), 2, (-1)), NodeRef.SouthWest), 40);
    (((0, (-2), 2), NodeRef.North), 10);
    (((0, (-2), 2), NodeRef.NorthEast), 29);
    (((0, (-2), 2), NodeRef.NorthWest), 11);
    (((0, (-2), 2), NodeRef.South), 31);
    (((0, (-2), 2), NodeRef.SouthEast), 30);
    (((0, (-2), 2), NodeRef.SouthWest), 32);
    (((0, (-1), 1), NodeRef.North), 2);
    (((0, (-1), 1), NodeRef.NorthEast), 9);
    (((0, (-1), 1), NodeRef.NorthWest), 3);
    (((0, (-1), 1), NodeRef.South), 11);
    (((0, (-1), 1), NodeRef.SouthEast), 10);
    (((0, (-1), 1), NodeRef.SouthWest), 12);
    (((0, 0, 0), NodeRef.North), 0);
    (((0, 0, 0), NodeRef.NorthEast), 1);
    (((0, 0, 0), NodeRef.NorthWest), 5);
    (((0, 0, 0), NodeRef.South), 3);
    (((0, 0, 0), NodeRef.SouthEast), 2);
    (((0, 0, 0), NodeRef.SouthWest), 4);
    (((0, 1, (-1)), NodeRef.North), 19);
    (((0, 1, (-1)), NodeRef.NorthEast), 20);
    (((0, 1, (-1)), NodeRef.NorthWest), 21);
    (((0, 1, (-1)), NodeRef.South), 5);
    (((0, 1, (-1)), NodeRef.SouthEast), 0);
    (((0, 1, (-1)), NodeRef.SouthWest), 16);
    (((0, 2, (-2)), NodeRef.North), 45);
    (((0, 2, (-2)), NodeRef.NorthEast), 46);
    (((0, 2, (-2)), NodeRef.NorthWest), 47);
    (((0, 2, (-2)), NodeRef.South), 21);
    (((0, 2, (-2)), NodeRef.SouthEast), 19);
    (((0, 2, (-2)), NodeRef.SouthWest), 43);
    (((1, (-2), 1), NodeRef.North), 8);
    (((1, (-2), 1), NodeRef.NorthEast), 27);
    (((1, (-2), 1), NodeRef.NorthWest), 9);
    (((1, (-2), 1), NodeRef.South), 29);
    (((1, (-2), 1), NodeRef.SouthEast), 28);
    (((1, (-2), 1), NodeRef.SouthWest), 10);
    (((1, (-1), 0), NodeRef.North), 6);
    (((1, (-1), 0), NodeRef.NorthEast), 7);
    (((1, (-1), 0), NodeRef.NorthWest), 1);
    (((1, (-1), 0), NodeRef.South), 9);
    (((1, (-1), 0), NodeRef.SouthEast), 8);
    (((1, (-1), 0), NodeRef.SouthWest), 2);
    (((1, 0, (-1)), NodeRef.North), 22);
    (((1, 0, (-1)), NodeRef.NorthEast), 23);
    (((1, 0, (-1)), NodeRef.NorthWest), 20);
    (((1, 0, (-1)), NodeRef.South), 1);
    (((1, 0, (-1)), NodeRef.SouthEast), 6);
    (((1, 0, (-1)), NodeRef.SouthWest), 0);
    (((1, 1, (-2)), NodeRef.North), 48);
    (((1, 1, (-2)), NodeRef.NorthEast), 49);
    (((1, 1, (-2)), NodeRef.NorthWest), 46);
    (((1, 1, (-2)), NodeRef.South), 20);
    (((1, 1, (-2)), NodeRef.SouthEast), 22);
    (((1, 1, (-2)), NodeRef.SouthWest), 19);
    (((2, (-2), 0), NodeRef.North), 24);
    (((2, (-2), 0), NodeRef.NorthEast), 25);
    (((2, (-2), 0), NodeRef.NorthWest), 7);
    (((2, (-2), 0), NodeRef.South), 27);
    (((2, (-2), 0), NodeRef.SouthEast), 26);
    (((2, (-2), 0), NodeRef.SouthWest), 8);
    (((2, (-1), (-1)), NodeRef.North), 52);
    (((2, (-1), (-1)), NodeRef.NorthEast), 53);
    (((2, (-1), (-1)), NodeRef.NorthWest), 23);
    (((2, (-1), (-1)), NodeRef.South), 7);
    (((2, (-1), (-1)), NodeRef.SouthEast), 24);
    (((2, (-1), (-1)), NodeRef.SouthWest), 6);
    (((2, 0, (-2)), NodeRef.North), 50);
    (((2, 0, (-2)), NodeRef.NorthEast), 51);
    (((2, 0, (-2)), NodeRef.NorthWest), 49);
    (((2, 0, (-2)), NodeRef.South), 23);
    (((2, 0, (-2)), NodeRef.SouthEast), 52);
    (((2, 0, (-2)), NodeRef.SouthWest), 22) ]%Z.

(* ================================================================= *)
(** ** Renderer *)

(** [d[k].append(p)] on a [defaultdict(list)]. *)
Definition defaultdict_append (d : Dict Z (list Point)) (k : Z) (p : Point)
  : Dict Z (list Point) :=
  match dict_get Z.eqb d k with
  | Some l => dict_set Z.eqb d k (l ++ [p])
  | None => dict_set Z.eqb d k [p]
  end.

(** Truth value of [node_ids]: [None] and the empty dictionary are false. *)
Definition node_ids_truthy (node_ids : option (Dict NodeKey Z)) : bool :=
  match node_ids with
  | Some (_ :: _) => true
  | _ => false
  end.

(** [str(n)] for an integer. *)
Definition str_of_Z (n : Z) : string := NilZero.string_of_int (Z.to_int n).

Definition str_of_nat (n : nat) : string := str_of_Z (Z.of_nat n).

(** [sum(iterable)]: the accumulator starts at 0. *)
Definition py_sum (l : list R) : R := fold_left Rplus l 0%R.

(** [total / len(positions)]. *)
Definition div_len (total : R) (n : nat) : Result R :=
  if Nat.eqb n 0 then raise ZeroDivisionError else ret (total / INR n)%R.

(** The body of the loop that collapses one position list (lines 420-426). *)
Definition centroid (positions : list Point) : Result Point :=
  if Nat.eqb (List.length positions) 1
  then list_getitem positions 0
  else
    avg_x <- div_len (py_sum (map fst positions)) (List.length positions) ;;
    avg_y <- div_len (py_sum (map snd positions)) (List.length positions) ;;
    ret (avg_x, avg_y).

(** The loop over [node_id_to_positions.items()] (lines 418-426). *)
Definition collapse_positions (node_id_to_positions : Dict Z (list Point))
  : Result (Dict Z Point) :=
  for_in node_id_to_positions
    (fun node_positions item =>
       let '(node_id, positions) := item in
       p <- centroid positions ;;
       ret (dict_set Z.eqb node_positions node_id p))
    [].

(** The state the tile loop updates.  [lookups] is ghost state: the keys
    tested against [node_ids], in order. *)
Record TileLoop : Type := MkTileLoop {
  node_id_to_positions : Dict Z (list Point);
  coords_pixels : list (R * R * string);
  ax_calls : list DrawCall;
  lookups : list NodeKey
}.

(** The body of the loop over the node references (lines 410-414).  The
    membership test [key in node_ids] and the read [node_ids[key]] are one
    lookup here; the key tested is appended to the ghost list. *)
Definition collect_node (node_ids : Dict NodeKey Z) (coord_key : Z * Z * Z)
    (px py hex_size : R) (st : Dict Z (list Point) * list NodeKey)
    (node_ref : string) : Result (Dict Z (list Point) * list NodeKey) :=
  let '(positions, probes) := st in
  let key := (coord_key, node_ref) in
  match dict_get NodeKey_eqb node_ids key with
  | Some node_id =>
      '(node_x, node_y) <- get_node_position px py hex_size node_ref ;;
      ret (defaultdict_append positions node_id (node_x, node_y),
           probes ++ [key])
  | None => ret (positions, probes ++ [key])
  end.

(** The loop over the six node references of one tile (lines 408-414). *)
Definition collect_nodes (node_ids : Dict NodeKey Z) (coord_key : Z * Z * Z)
    (px py hex_size : R) (st : Dict Z (list Point) * list NodeKey)
  : Result (Dict Z (list Point) * list NodeKey) :=
  for_in [ NodeRef.North; NodeRef.NorthEast; NodeRef.SouthEast;
           NodeRef.South; NodeRef.SouthWest; NodeRef.NorthWest ]
    (collect_node node_ids coord_key px py hex_size) st.

Definition colors : Dict string string :=
  dict_of_list String.eqb
    [ (TileTemplate.LAND, "#8B4513");
      (TileTemplate.WATER, "#4169E1");
      (TileTemplate.PORT, "#FFD700") ].

(** [colors.get(tile_type, 'gray')]. *)
Definition colors_get (tile_type : string) : string :=
  match dict_get String.eqb colors tile_type with
  | Some c => c
  | None => "gray"
  end.

(** The body of the loop over the topology (lines 395-414). *)
Definition visit_tile (hex_size : R) (node_ids : option (Dict NodeKey Z))
    (st : TileLoop) (entry : (Z * Z * Z) * string) : Result TileLoop :=
  let '((x, y, z), tile_type) := entry in
  cube <- CubeCoord_new x y z ;;
  let '(px, py) := cube_to_pixel cube hex_size in
  let coords_pixels := coords_pixels st ++ [(px, py, tile_type)] in
  let color := colors_get tile_type in
  ax <- draw_hexagon (ax_calls st) px py hex_size color "black" 1.5%R 0.8%R None ;;
  if node_ids_truthy node_ids
  then
    let table := match node_ids with Some t => t | None => [] end in
    '(positions, probes) <-
       collect_nodes table (x, y, z) px py hex_size
         (node_id_to_positions st, lookups st) ;;
    ret (MkTileLoop positions coords_pixels ax probes)
  else ret (MkTileLoop (node_id_to_positions st) coords_pixels ax (lookups st)).

(** The loop that draws the labels (lines 429-436). *)
Definition draw_labels (hex_size : R) (node_positions : Dict Z Point)
    (ax : list DrawCall) : list DrawCall :=
  fold_left
    (fun ax item =>
       let '(node_id, (node_x, node_y)) := item in
       ax ++ [ AddCircle (node_x, node_y) (hex_size * 0.15)%R "white" "black"
                 1.5%R 10;
               AxText node_x node_y (str_of_Z node_id) 7 (Some 11%Z) false ])
    node_positions ax.

(** [min(xs)] and [max(xs)] of a non-empty list. *)
Definition py_min (first : R) (rest : list R) : R := fold_left Rmin rest first.
Definition py_max (first : R) (rest : list R) : R := fold_left Rmax rest first.

(** Axis limits with padding (lines 439-446). *)
Definition set_limits (hex_size : R) (coords_pixels : list (R * R * string))
    (ax : list DrawCall) : list DrawCall :=
  match coords_pixels with
  | [] => ax
  | first :: rest =>
      let x_min := py_min (fst (fst first)) (map (fun c => fst (fst c)) rest) in
      let x_max := py_max (fst (fst first)) (map (fun c => fst (fst c)) rest) in
      let y_min := py_min (snd (fst first)) (map (fun c => snd (fst c)) rest) in
      let y_max := py_max (snd (fst first)) (map (fun c => snd (fst c)) rest) in
      let padding := (hex_size * 2)%R in
      ax ++ [ SetXlim (x_min - padding) (x_max + padding);
              SetYlim (y_min - padding) (y_max + padding) ]%R
  end.

(** [sum(1 for _, t in topology if t == kind)]. *)
Definition count_kind (topology : list ((Z * Z * Z) * string)) (kind : string)
  : nat :=
  List.length (filter (fun e => String.eqb (snd e) kind) topology).

Definition newline : string := String (ascii_of_nat 10) EmptyString.

Definition stats_text (topology : list ((Z * Z * Z) * string))
    (node_count : nat) : string :=
  "Total Tiles: " ++ str_of_nat (List.length topology) ++ newline ++
  "Land: " ++ str_of_nat (count_kind topology TileTemplate.LAND) ++
  " | Water: " ++ str_of_nat (count_kind topology TileTemplate.WATER) ++
  " | Ports: " ++ str_of_nat (count_kind topology TileTemplate.PORT) ++ newline ++
  "Nodes: " ++ str_of_nat node_count.

(** What a call of [visualize_map] leaves behind: the calls made to
    matplotlib and (ghost) the keys tested against [node_ids]. *)
Record Rendering : Type := MkRendering {
  drawn : list DrawCall;
  probed : list NodeKey
}.

Definition visualize_map (topology : list ((Z * Z * Z) * string))
    (title filename : string) (hex_size : R)
    (node_ids : option (Dict NodeKey Z)) : Result Rendering :=
  let ax := [Subplots 20 20; SetAspect "equal"; AxisOff] in
  st <- for_in topology (visit_tile hex_size node_ids)
          (MkTileLoop [] [] ax []) ;;
  node_positions <- collapse_positions (node_id_to_positions st) ;;
  let ax := draw_labels hex_size node_positions (ax_calls st) in
  let ax := set_limits hex_size (coords_pixels st) ax in
  let ax := ax ++ [SetTitle title 20] in
  land <- str_getitem colors TileTemplate.LAND ;;
  water <- str_getitem colors TileTemplate.WATER ;;
  port <- str_getitem colors TileTemplate.PORT ;;
  let ax := ax ++ [AddLegend [(land, "Land"); (water, "Water"); (port, "Port")]] in
  let node_count := List.length node_positions in
  let ax := ax ++ [AxText 0.02%R 0.98%R (stats_text topology node_count)
                     10 None true] in
  let ax := ax ++ [TightLayout; Savefig filename 300; PrintLine ("Saved " ++ filename);
                   Close] in
  ret (MkRendering ax (lookups st)).

(** *** Observations on a rendering *)

(** The hexagons drawn: the corner lists of the polygons, in order. *)
Definition hexagons (calls : list DrawCall) : list (list Point) :=
  flat_map (fun c => match c with
                     | AddPolygon corners _ _ _ _ => [corners]
                     | _ => []
                     end) calls.

(** The node labels emitted: a white marker circle followed by the text
    of the identifier at the same position. *)
Fixpoint node_labels (calls : list DrawCall) : list (Point * string) :=
  match calls with
  | AddCircle c _ _ _ _ _ :: ((AxText x y s _ _ _ :: _) as rest) =>
      (c, s) :: node_labels rest
  | _ :: rest => node_labels rest
  | [] => []
  end.


(* ================================================================= *)
(** ** Specification-level notions *)

(** The arithmetic mean as the specification words it: the sum of the
    values divided by their number. *)
Definition arithmetic_mean (values : list R) : R :=
  (fold_right Rplus 0 values / INR (List.length values))%R.

Definition mean_point (positions : list Point) : Point :=
  (arithmetic_mean (map fst positions), arithmetic_mean (map snd positions)).

Definition midpoint (p q : Point) : Point :=
  ((fst p + fst q) / 2, (snd p + snd q) / 2)%R.

(** Every coordinate of the topology satisfies the zero-sum invariant. *)
Definition valid_topology (topology : list ((Z * Z * Z) * string)) : bool :=
  forallb (fun e => let '((x, y, z), _) := e in (x + y + z =? 0)%Z) topology.

(** The positions recorded for a node identifier ([[]] when it has none). *)
Definition lookup_list (d : Dict Z (list Point)) (node_id : Z) : list Point :=
  match dict_get Z.eqb d node_id with
  | Some l => l
  | None => []
  end.

(** The corner a node reference selects, when [get_node_position] returns. *)
Definition node_point (center : Point) (size : R) (node_ref : string) : Point :=
  match get_node_position (fst center) (snd center) size node_ref with
  | inr p => p
  | inl _ => center
  end.

(** The six source angles, in [node_order]. *)
Definition source_angle (k : nat) : R :=
  nth k [ - PI / 2; - PI / 6; PI / 6; PI / 2; 5 * PI / 6; -5 * PI / 6 ]%R 0%R.

(** The pixel centre of the tile at [(x, y, z)]. *)
Definition tile_center (hex_size : R) (coord : Z * Z * Z) : Point :=
  let '(x, y, z) := coord in cube_to_pixel (MkCubeCoord x y z) hex_size.

(** The six corners around a centre, as [hexagon_corners] lists them. *)
Definition corner_points (center : Point) (size : R) : list Point :=
  map (fun k => polar center size (source_angle k)) (seq 0 6).

(** The polygon [visit_tile] draws for one entry of the topology. *)
Definition tile_polygon (hex_size : R) (entry : (Z * Z * Z) * string) : DrawCall :=
  AddPolygon (corner_points (tile_center hex_size (fst entry)) hex_size)
    (colors_get (snd entry)) "black" 1.5%R 0.8%R.

Definition tile_pixel (hex_size : R) (entry : (Z * Z * Z) * string)
  : R * R * string :=
  (tile_center hex_size (fst entry), snd entry).

(** The calls that draw the labels of [node_positions]. *)
Definition label_calls (hex_size : R) (node_positions : Dict Z Point)
  : list DrawCall :=
  flat_map
    (fun item =>
       [ AddCircle (snd item) (hex_size * 0.15)%R "white" "black" 1.5%R 10;
         AxText (fst (snd item)) (snd (snd item)) (str_of_Z (fst item)) 7
           (Some 11%Z) false ])
    node_positions.

(** The centres of the marker circles drawn. *)
Definition circles (calls : list DrawCall) : list Point :=
  flat_map (fun c => match c with
                     | AddCircle center _ _ _ _ _ => [center]
                     | _ => []
                     end) calls.

(** The step one direction contributes to [node_id_to_positions]. *)
Definition collect_step (table : Dict NodeKey Z) (coord : Z * Z * Z)
    (center : Point) (hex_size : R) (d : Dict Z (list Point))
    (node_ref : string) : Dict Z (list Point) :=
  match dict_get NodeKey_eqb table (coord, node_ref) with
  | Some node_id =>
      defaultdict_append d node_id (node_point center hex_size node_ref)
  | None => d
  end.

(** The positions one tile contributes to [node_id]: one per direction
    whose key is in the table with that identifier. *)
Definition tile_contributions (table : Dict NodeKey Z) (hex_size : R)
    (node_id : Z) (coord : Z * Z * Z) : list Point :=
  flat_map
    (fun node_ref =>
       match dict_get NodeKey_eqb table (coord, node_ref) with
       | Some n =>
           if Z.eqb n node_id
           then [node_point (tile_center hex_size coord) hex_size node_ref]
           else []
       | None => []
       end)
    node_order.

Definition contributions (table : Dict NodeKey Z) (hex_size : R)
    (topology : list ((Z * Z * Z) * string)) (node_id : Z) : list Point :=
  flat_map (fun e => tile_contributions table hex_size node_id (fst e)) topology.

(** The invariant of [node_id_to_positions]: keys are distinct and no
    position list is empty (a list is created by its first [append]). *)
Fixpoint distinct (l : list Z) : bool :=
  match l with
  | [] => true
  | a :: rest => negb (existsb (Z.eqb a) rest) && distinct rest
  end.

Definition positions_wf (d : Dict Z (list Point)) : bool :=
  distinct (dict_keys d) &&
  forallb (fun kv => match snd kv with [] => false | _ :: _ => true end) d.

(** The table the tile loop consults. *)
Definition table_of (node_ids : option (Dict NodeKey Z)) : Dict NodeKey Z :=
  match node_ids with
  | Some table => table
  | None => []
  end.

(** The state [visit_tile] returns on a tile with a valid coordinate. *)
Definition visited (hex_size : R) (node_ids : option (Dict NodeKey Z))
    (st : TileLoop) (entry : (Z * Z * Z) * string) : TileLoop :=
  MkTileLoop
    (if node_ids_truthy node_ids
     then fold_left
            (collect_step (table_of node_ids) (fst entry)
               (tile_center hex_size (fst entry)) hex_size)
            node_order (node_id_to_positions st)
     else node_id_to_positions st)
    (coords_pixels st ++ [tile_pixel hex_size entry])
    (ax_calls st ++ [tile_polygon hex_size entry])
    (if node_ids_truthy node_ids
     then lookups st ++ map (fun node_ref => (fst entry, node_ref)) node_order
     else lookups st).

(** The result of collapsing a well-formed [node_id_to_positions]. *)
Definition collapsed (d : Dict Z (list Point)) : Dict Z Point :=
  map (fun kv => (fst kv, mean_point (snd kv))) d.

(** The calls [visualize_map] makes after the labels are drawn. *)
Definition closing_calls (topology : list ((Z * Z * Z) * string))
    (title filename : string) (hex_size : R)
    (coords : list (R * R * string)) (node_count : nat) : list DrawCall :=
  set_limits hex_size coords [] ++
  [ SetTitle title 20;
    AddLegend [("#8B4513", "Land"); ("#4169E1", "Water"); ("#FFD700", "Port")];
    AxText 0.02%R 0.98%R (stats_text topology node_count) 10 None true;
    TightLayout; Savefig filename 300; PrintLine ("Saved " ++ filename); Close ].

(** The state in which the tile loop starts. *)
Definition initial_state : TileLoop :=
  MkTileLoop [] [] [Subplots 20 20; SetAspect "equal"; AxisOff] [].

(** Position of a corner on the half-integer lattice: the corner of tile
    [(x, y, z)] in direction [node_ref] is
    [size * (sqrt 3 / 2 * a, 1 / 2 * b)] for the integers [(a, b)] below. *)
Definition lattice_offset : Dict string (Z * Z) :=
  [ (NodeRef.North, (0, -2)); (NodeRef.NorthEast, (1, -1));
    (NodeRef.SouthEast, (1, 1)); (NodeRef.South, (0, 2));
    (NodeRef.SouthWest, (-1, 1)); (NodeRef.NorthWest, (-1, -1)) ]%Z.

Definition lattice (key : NodeKey) : option (Z * Z) :=
  let '((x, _, z), node_ref) := key in
  match dict_get String.eqb lattice_offset node_ref with
  | Some (a, b) => Some (2 * x + z + a, 3 * z + b)%Z
  | None => None
  end.

Definition lattice_point (hex_size : R) (ab : Z * Z) : Point :=
  (hex_size * (sqrt 3 / 2 * IZR (fst ab)), hex_size * (IZR (snd ab) / 2))%R.

(** Two table entries with the same identifier sit on the same lattice
    point. *)
Definition consistent_entries (e1 e2 : NodeKey * Z) : bool :=
  if Z.eqb (snd e1) (snd e2)
  then match lattice (fst e1), lattice (fst e2) with
       | Some (a1, b1), Some (a2, b2) => ((a1 =? a2) && (b1 =? b2))%Z
       | _, _ => false
       end
  else true.

Definition consistent_table (table : Dict NodeKey Z) : bool :=
  forallb (fun e1 => forallb (consistent_entries e1) table) table.

(* ================================================================= *)
(** ** The rest of the script *)

Definition BASE_TOPOLOGY : list ((Z * Z * Z) * string) :=
  [
    ((0, 0, 0), TileTemplate.LAND);
    ((1, (-1), 0), TileTemplate.LAND);
    ((0, (-1), 1), TileTemplate.LAND);
    (((-1), 0, 1), TileTemplate.LAND);
    (((-1), 1, 0), TileTemplate.LAND);
    ((0, 1, (-1)), TileTemplate.LAND);
    ((1, 0, (-1)), TileTemplate.LAND);
    ((2, (-2), 0), TileTemplate.LAND);
    ((1, (-2), 1), TileTemplate.LAND);
    ((0, (-2), 2), TileTemplate.LAND);
    (((-1), (-1), 2), TileTemplate.LAND);
    (((-2), 0, 2), TileTemplate.LAND);
    (((-2), 1, 1), TileTemplate.LAND);
    (((-2), 2, 0), TileTemplate.LAND);
    (((-1), 2, (-1)), TileTemplate.LAND);
    ((0, 2, (-2)), TileTemplate.LAND);
    ((1, 1, (-2)), TileTemplate.LAND);
    ((2, 0, (-2)), TileTemplate.LAND);
    ((2, (-1), (-1)), TileTemplate.LAND);
    ((3, (-3), 0), TileTemplate.PORT);
    ((2, (-3), 1), TileTemplate.WATER);
    ((1, (-3), 2), TileTemplate.PORT);
    ((0, (-3), 3), TileTemplate.WATER);
    (((-1), (-2), 3), TileTemplate.PORT);
    (((-2), (-1), 3), TileTemplate.WATER);
    (((-3), 0, 3), TileTemplate.PORT);
    (((-3), 1, 2), TileTemplate.WATER);
    (((-3), 2, 1), TileTemplate.PORT);
    (((-3), 3, 0), TileTemplate.WATER);
    (((-2), 3, (-1)), TileTemplate.PORT);
    (((-1), 3, (-2)), TileTemplate.WATER);
    ((0, 3, (-3)), TileTemplate.PORT);
    ((1, 2, (-3)), TileTemplate.WATER);
    ((2, 1, (-3)), TileTemplate.PORT);
    ((3, 0, (-3)), TileTemplate.WATER);
    ((3, (-1), (-2)), TileTemplate.PORT);
    ((3, (-2), (-1)), TileTemplate.WATER) ]%Z.

Definition BASE_NODE_IDS : Dict NodeKey Z :=
  dict_of_list NodeKey_eqb
  [
    ((((-3), 0, 3), NodeRef.North), 36);
    ((((-3), 0, 3), NodeRef.NorthEast), 35);
    ((((-3), 0, 3), NodeRef.NorthWest), 71);
    ((((-3), 0, 3), NodeRef.South), 69);
    ((((-3), 0, 3), NodeRef.SouthEast), 68);
    ((((-3), 0, 3), NodeRef.SouthWest), 70);
    ((((-3), 1, 2), NodeRef.North), 38);
    ((((-3), 1, 2), NodeRef.NorthEast), 37);
    ((((-3), 1, 2), NodeRef.NorthWest), 73);
    ((((-3), 1, 2), NodeRef.South), 71);
    ((((-3), 1, 2), NodeRef.SouthEast), 36);
    ((((-3), 1, 2), NodeRef.SouthWest), 72);
    ((((-3), 2, 1), NodeRef.North), 41);
    ((((-3), 2, 1), NodeRef.NorthEast), 39);
    ((((-3), 2, 1), NodeRef.NorthWest), 75);
    ((((-3), 2, 1), NodeRef.South), 73);
    ((((-3), 2, 1), NodeRef.SouthEast), 38);
    ((((-3), 2, 1), NodeRef.SouthWest), 74);
    ((((-3), 3, 0), NodeRef.North), 76);
    ((((-3), 3, 0), NodeRef.NorthEast), 42);
    ((((-3), 3, 0), NodeRef.NorthWest), 78);
    ((((-3), 3, 0), NodeRef.South), 75);
    ((((-3), 3, 0), NodeRef.SouthEast), 41);
    ((((-3), 3, 0), NodeRef.SouthWest), 77);
    ((((-2), (-1), 3), NodeRef.North), 34);
    ((((-2), (-1), 3), NodeRef.NorthEast), 33);
    ((((-2), (-1), 3), NodeRef.NorthWest), 35);
    ((((-2), (-1), 3), NodeRef.South), 67);
    ((((-2), (-1), 3), NodeRef.SouthEast), 66);
    ((((-2), (-1), 3), NodeRef.SouthWest), 68);
    ((((-2), 0, 2), NodeRef.North), 14);
    ((((-2), 0, 2), NodeRef.NorthEast), 13);
    ((((-2), 0, 2), NodeRef.NorthWest), 37);
    ((((-2), 0, 2), NodeRef.South), 35);
    ((((-2), 0, 2), NodeRef.SouthEast), 34);
    ((((-2), 0, 2), NodeRef.SouthWest), 36);
    ((((-2), 1, 1), NodeRef.North), 17);
    ((((-2), 1, 1), NodeRef.NorthEast), 15);
    ((((-2), 1, 1), NodeRef.NorthWest), 39);
    ((((-2), 1, 1), NodeRef.South), 37);
    ((((-2), 1, 1), NodeRef.SouthEast), 14);
    ((((-2), 1, 1), NodeRef.SouthWest), 38);
    ((((-2), 2, 0), NodeRef.North), 40);
    ((((-2), 2, 0), NodeRef.NorthEast), 18);
    ((((-2), 2, 0), NodeRef.NorthWest), 42);
    ((((-2), 2, 0), NodeRef.South), 39);
    ((((-2), 2, 0), NodeRef.SouthEast), 17);
    ((((-2), 2, 0), NodeRef.SouthWest), 41);
    ((((-2), 3, (-1)), NodeRef.North), 79);
    ((((-2), 3, (-1)), NodeRef.NorthEast), 44);
    ((((-2), 3, (-1)), NodeRef.NorthWest), 80);
    ((((-2), 3, (-1)), NodeRef.South), 42);
    ((((-2), 3, (-1)), NodeRef.SouthEast), 40);
    ((((-2), 3, (-1)), NodeRef.SouthWest), 76);
    ((((-1), (-2), 3), NodeRef.North), 32);
    ((((-1), (-2), 3), NodeRef.NorthEast), 31);
    ((((-1), (-2), 3), NodeRef.NorthWest), 33);
    ((((-1), (-2), 3), NodeRef.South), 65);
    ((((-1), (-2), 3), NodeRef.SouthEast), 64);
    ((((-1), (-2), 3), NodeRef.SouthWest), 66);
    ((((-1), (-1), 2), NodeRef.North), 12);
    ((((-1), (-1), 2), NodeRef.NorthEast), 11);
    ((((-1), (-1), 2), NodeRef.NorthWest), 13);
    ((((-1), (-1), 2), NodeRef.South), 33);
    ((((-1), (-1), 2), NodeRef.SouthEast), 32);
    ((((-1), (-1), 2), NodeRef.SouthWest), 34);
    ((((-1), 0, 1), NodeRef.North), 4);
    ((((-1), 0, 1), NodeRef.NorthEast), 3);
    ((((-1), 0, 1), NodeRef.NorthWest), 15);
    ((((-1), 0, 1), NodeRef.South), 13);
    ((((-1), 0, 1), NodeRef.SouthEast), 12);
    ((((-1), 0, 1), NodeRef.SouthWest), 14);
    ((((-1), 1, 0), NodeRef.North), 16);
    ((((-1), 1, 0), NodeRef.NorthEast), 5);
    ((((-1), 1, 0), NodeRef.NorthWest), 18);
    ((((-1), 1, 0), NodeRef.South), 15);
    ((((-1), 1, 0), NodeRef.SouthEast), 4);
    ((((-1), 1, 0), NodeRef.SouthWest), 17);
    ((((-1), 2, (-1)), NodeRef.North), 43);
    ((((-1), 2, (-1)), NodeRef.NorthEast), 21);
    ((((-1), 2, (-1)), NodeRef.NorthWest), 44);
    ((((-1), 2, (-1)), NodeRef.South), 18);
    ((((-1), 2, (-1)), NodeRef.SouthEast), 16);
    ((((-1), 2, (-1)), NodeRef.SouthWest), 40);
    ((((-1), 3, (-2)), NodeRef.North), 81);
    ((((-1), 3, (-2)), NodeRef.NorthEast), 47);
    ((((-1), 3, (-2)), NodeRef.NorthWest), 82);
    ((((-1), 3, (-2)), NodeRef.South), 44);
    ((((-1), 3, (-2)), NodeRef.SouthEast), 43);
    ((((-1), 3, (-2)), NodeRef.SouthWest), 79);
    (((0, (-3), 3), NodeRef.North), 30);
    (((0, (-3), 3), NodeRef.NorthEast), 61);
    (((0, (-3), 3), NodeRef.NorthWest), 31);
    (((0, (-3), 3), NodeRef.South), 63);
    (((0, (-3), 3), NodeRef.SouthEast), 62);
    (((0, (-3), 3), NodeRef.SouthWest), 64);
    (((0, (-2), 2), NodeRef.North), 10);
    (((0, (-2), 2), NodeRef.NorthEast), 29);
    (((0, (-2), 2), NodeRef.NorthWest), 11);
    (((0, (-2), 2), NodeRef.South), 31);
    (((0, (-2), 2), NodeRef.SouthEast), 30);
    (((0, (-2), 2), NodeRef.SouthWest), 32);
    (((0, (-1), 1), NodeRef.North), 2);
    (((0, (-1), 1), NodeRef.NorthEast), 9);
    (((0, (-1), 1), NodeRef.NorthWest), 3);
    (((0, (-1), 1), NodeRef.South), 11);
    (((0, (-1), 1), NodeRef.SouthEast), 10);
    (((0, (-1), 1), NodeRef.SouthWest), 12);
    (((0, 0, 0), NodeRef.North), 0);
    (((0, 0, 0), NodeRef.NorthEast), 1);
    (((0, 0, 0), NodeRef.NorthWest), 5);
    (((0, 0, 0), NodeRef.South), 3);
    (((0, 0, 0), NodeRef.SouthEast), 2);
    (((0, 0, 0), NodeRef.SouthWest), 4);
    (((0, 1, (-1)), NodeRef.North), 19);
    (((0, 1, (-1)), NodeRef.NorthEast), 20);
    (((0, 1, (-1)), NodeRef.NorthWest), 21);
    (((0, 1, (-1)), NodeRef.South), 5);
    (((0, 1, (-1)), NodeRef.SouthEast), 0);
    (((0, 1, (-1)), NodeRef.SouthWest), 16);
    (((0, 2, (-2)), NodeRef.North), 45);
    (((0, 2, (-2)), NodeRef.NorthEast), 46);
    (((0, 2, (-2)), NodeRef.NorthWest), 47);
    (((0, 2, (-2)), NodeRef.South), 21);
    (((0, 2, (-2)), NodeRef.SouthEast), 19);
    (((0, 2, (-2)), NodeRef.SouthWest), 43);
    (((0, 3, (-3)), NodeRef.North), 83);
    (((0, 3, (-3)), NodeRef.NorthEast), 84);
    (((0, 3, (-3)), NodeRef.NorthWest), 85);
    (((0, 3, (-3)), NodeRef.South), 47);
    (((0, 3, (-3)), NodeRef.SouthEast), 45);
    (((0, 3, (-3)), NodeRef.SouthWest), 81);
    (((1, (-3), 2), NodeRef.North), 28);
    (((1, (-3), 2), NodeRef.NorthEast), 59);
    (((1, (-3), 2), NodeRef.NorthWest), 29);
    (((1, (-3), 2), NodeRef.South), 61);
    (((1, (-3), 2), NodeRef.SouthEast), 60);
    (((1, (-3), 2), NodeRef.SouthWest), 30);
    (((1, (-2), 1), NodeRef.North), 8);
    (((1, (-2), 1), NodeRef.NorthEast), 27);
    (((1, (-2), 1), NodeRef.NorthWest), 9);
    (((1, (-2), 1), NodeRef.South), 29);
    (((1, (-2), 1), NodeRef.SouthEast), 28);
    (((1, (-2), 1), NodeRef.SouthWest), 10);
    (((1, (-1), 0), NodeRef.North), 6);
    (((1, (-1), 0), NodeRef.NorthEast), 7);
    (((1, (-1), 0), NodeRef.NorthWest), 1);
    (((1, (-1), 0), NodeRef.South), 9);
    (((1, (-1), 0), NodeRef.SouthEast), 8);
    (((1, (-1), 0), NodeRef.SouthWest), 2);
    (((1, 0, (-1)), NodeRef.North), 22);
    (((1, 0, (-1)), NodeRef.NorthEast), 23);
    (((1, 0, (-1)), NodeRef.NorthWest), 20);
    (((1, 0, (-1)), NodeRef.South), 1);
    (((1, 0, (-1)), NodeRef.SouthEast), 6);
    (((1, 0, (-1)), NodeRef.SouthWest), 0);
    (((1, 1, (-2)), NodeRef.North), 48);
    (((1, 1, (-2)), NodeRef.NorthEast), 49);
    (((1, 1, (-2)), NodeRef.NorthWest), 46);
    (((1, 1, (-2)), NodeRef.South), 20);
    (((1, 1, (-2)), NodeRef.SouthEast), 22);
    (((1, 1, (-2)), NodeRef.SouthWest), 19);
    (((1, 2, (-3)), NodeRef.North), 86);
    (((1, 2, (-3)), NodeRef.NorthEast), 87);
    (((1, 2, (-3)), NodeRef.NorthWest), 84);
    (((1, 2, (-3)), NodeRef.South), 46);
    (((1, 2, (-3)), NodeRef.SouthEast), 48);
    (((1, 2, (-3)), NodeRef.SouthWest), 45);
    (((2, (-3), 1), NodeRef.North), 26);
    (((2, (-3), 1), NodeRef.NorthEast), 57);
    (((2, (-3), 1), NodeRef.NorthWest), 27);
    (((2, (-3), 1), NodeRef.South), 59);
    (((2, (-3), 1), NodeRef.SouthEast), 58);
    (((2, (-3), 1), NodeRef.SouthWest), 28);
    (((2, (-2), 0), NodeRef.North), 24);
    (((2, (-2), 0), NodeRef.NorthEast), 25);
    (((2, (-2), 0), NodeRef.NorthWest), 7);
    (((2, (-2), 0), NodeRef.South), 27);
    (((2, (-2), 0), NodeRef.SouthEast), 26);
    (((2, (-2), 0), NodeRef.SouthWest), 8);
    (((2, (-1), (-1)), NodeRef.North), 52);
    (((2, (-1), (-1)), NodeRef.NorthEast), 53);
    (((2, (-1), (-1)), NodeRef.NorthWest), 23);
    (((2, (-1), (-1)), NodeRef.South), 7);
    (((2, (-1), (-1)), NodeRef.SouthEast), 24);
    (((2, (-1), (-1)), NodeRef.SouthWest), 6);
    (((2, 0, (-2)), NodeRef.North), 50);
    (((2, 0, (-2)), NodeRef.NorthEast), 51);
    (((2, 0, (-2)), NodeRef.NorthWest), 49);
    (((2, 0, (-2)), NodeRef.South), 23);
    (((2, 0, (-2)), NodeRef.SouthEast), 52);
    (((2, 0, (-2)), NodeRef.SouthWest), 22);
    (((2, 1, (-3)), NodeRef.North), 88);
    (((2, 1, (-3)), NodeRef.NorthEast), 89);
    (((2, 1, (-3)), NodeRef.NorthWest), 87);
    (((2, 1, (-3)), NodeRef.South), 49);
    (((2, 1, (-3)), NodeRef.SouthEast), 50);
    (((2, 1, (-3)), NodeRef.SouthWest), 48);
    (((3, (-3), 0), NodeRef.North), 54);
    (((3, (-3), 0), NodeRef.NorthEast), 55);
    (((3, (-3), 0), NodeRef.NorthWest), 25);
    (((3, (-3), 0), NodeRef.South), 57);
    (((3, (-3), 0), NodeRef.SouthEast), 56);
    (((3, (-3), 0), NodeRef.SouthWest), 26);
    (((3, (-2), (-1)), NodeRef.North), 94);
    (((3, (-2), (-1)), NodeRef.NorthEast), 95);
    (((3, (-2), (-1)), NodeRef.NorthWest), 53);
    (((3, (-2), (-1)), NodeRef.South), 25);
    (((3, (-2), (-1)), NodeRef.SouthEast), 54);
    (((3, (-2), (-1)), NodeRef.SouthWest), 24);
    (((3, (-1), (-2)), NodeRef.North), 92);
    (((3, (-1), (-2)), NodeRef.NorthEast), 93);
    (((3, (-1), (-2)), NodeRef.NorthWest), 51);
    (((3, (-1), (-2)), NodeRef.South), 53);
    (((3, (-1), (-2)), NodeRef.SouthEast), 94);
    (((3, (-1), (-2)), NodeRef.SouthWest), 52);
    (((3, 0, (-3)), NodeRef.North), 90);
    (((3, 0, (-3)), NodeRef.NorthEast), 91);
    (((3, 0, (-3)), NodeRef.NorthWest), 89);
    (((3, 0, (-3)), NodeRef.South), 51);
    (((3, 0, (-3)), NodeRef.SouthEast), 92);
    (((3, 0, (-3)), NodeRef.SouthWest), 50) ]%Z.

(** [main]: both built-in maps are rendered, between two messages on
    standard output. *)
Definition main : Result (list DrawCall) :=
  let out := [PrintLine "Generating Catan board visualizations..."] in
  base <- visualize_map BASE_TOPOLOGY
            "Catan Base Map - Hexagonal Structure with Node IDs"
            "catan_base_map.png" 0.5%R (Some BASE_NODE_IDS) ;;
  let out := out ++ drawn base in
  mini <- visualize_map MINI_TOPOLOGY
            "Catan Mini Map - Hexagonal Structure with Node IDs"
            "catan_mini_map.png" 0.6%R (Some MINI_NODE_IDS) ;;
  let out := out ++ drawn mini in
  ret (out ++ [PrintLine "Done!"]).

(** *** Further observations *)

(** The position [visualize_map] computes for a node reference of a tile
    (lines 397 and 413). *)
Definition corner_of (hex_size : R) (coord : Z * Z * Z) (node_ref : string)
  : Result Point :=
  get_node_position (fst (tile_center hex_size coord))
    (snd (tile_center hex_size coord)) hex_size node_ref.

(** The six unit steps of cube coordinates. *)
Definition cube_directions : list (Z * Z * Z) :=
  [ (1, -1, 0); (0, -1, 1); (-1, 0, 1); (-1, 1, 0); (0, 1, -1); (1, 0, -1) ]%Z.


(** The polygons drawn, each with its fill colour. *)
Definition polygons (calls : list DrawCall) : list (list Point * string) :=
  flat_map (fun c => match c with
                     | AddPolygon corners facecolor _ _ _ => [(corners, facecolor)]
                     | _ => []
                     end) calls.

(** The texts drawn with a z-order (the identifier texts of the labels;
    the statistics text has none), each with the position it is drawn
    at. *)
Definition label_texts (calls : list DrawCall) : list (Point * string) :=
  flat_map (fun c => match c with
                     | AxText x y s _ (Some _) _ => [((x, y), s)]
                     | _ => []
                     end) calls.

(** The axis limits set. *)
Definition xlims (calls : list DrawCall) : list (R * R) :=
  flat_map (fun c => match c with SetXlim lo hi => [(lo, hi)] | _ => [] end) calls.

Definition ylims (calls : list DrawCall) : list (R * R) :=
  flat_map (fun c => match c with SetYlim lo hi => [(lo, hi)] | _ => [] end) calls.

(** The files written. *)
Definition saved_files (calls : list DrawCall) : list string :=
  flat_map (fun c => match c with Savefig f _ => [f] | _ => [] end) calls.

(** Two table entries on the same lattice point carry the same
    identifier. *)
Definition separated_entries (e1 e2 : NodeKey * Z) : bool :=
  match lattice (fst e1), lattice (fst e2) with
  | Some (a1, b1), Some (a2, b2) =>
      if ((a1 =? a2) && (b1 =? b2))%Z then Z.eqb (snd e1) (snd e2) else true
  | _, _ => false
  end.

Definition separated_table (table : Dict NodeKey Z) : bool :=
  forallb (fun e1 => forallb (separated_entries e1) table) table.

(** The identifiers in the order in which the tile loop first meets
    them: the key order of [node_id_to_positions]. *)
Definition add_id (ids : list Z) (id : Z) : list Z :=
  if existsb (Z.eqb id) ids then ids else ids ++ [id].

Definition tile_ids (table : Dict NodeKey Z) (coord : Z * Z * Z)
    (ids : list Z) : list Z :=
  fold_left
    (fun ids node_ref =>
       match dict_get NodeKey_eqb table (coord, node_ref) with
       | Some id => add_id ids id
       | None => ids
       end)
    node_order ids.

Definition label_ids (table : Dict NodeKey Z)
    (topology : list ((Z * Z * Z) * string)) : list Z :=
  fold_left (fun ids e => tile_ids table (fst e) ids) topology [].

(* ================================================================= *)
(** ** The geometry in IEEE-754 doubles *)

(** The geometric functions once more, with Python's [float] as a binary64
    number and every operation rounded as the hardware rounds it.
    [np.sqrt] is the correctly rounded square root and [np.pi] the double
    nearest to pi.  [np.cos] and [np.sin] belong to the C library, not to
    the script: they are parameters of the functions that call them. *)
Module Float64.
Import PrimFloat.

Definition FPoint : Type := (float * float)%type.

(** An [int] operand of a float operation is converted to a double
    (exactly, for the magnitudes below 2^53 that occur here). *)
Definition of_Z (n : Z) : float :=
  match n with
  | Z0 => 0%float
  | Zpos _ => PrimFloat.of_uint63 (Uint63.of_Z n)
  | Zneg _ => (- PrimFloat.of_uint63 (Uint63.of_Z (- n)))%float
  end.

Definition np_pi : float := 0x1.921fb54442d18p+1%float.

Section Library.
Variables np_cos np_sin : float -> float.
Local Open Scope float_scope.

Definition cube_to_pixel (cube : CubeCoord) (size : float) : FPoint :=
  let x := size * (PrimFloat.sqrt 3 * of_Z (cube_x cube)
                   + PrimFloat.sqrt 3 / 2 * of_Z (cube_z cube)) in
  let y := size * (3 / 2 * of_Z (cube_z cube)) in
  (x, y).

Definition node_angles : Dict string float :=
  dict_of_list String.eqb
    [ (NodeRef.North, - np_pi / 2);
      (NodeRef.NorthEast, - np_pi / 6);
      (NodeRef.SouthEast, np_pi / 6);
      (NodeRef.South, np_pi / 2);
      (NodeRef.SouthWest, 5 * np_pi / 6);
      (NodeRef.NorthWest, -5 * np_pi / 6) ].

Definition hexagon_corners (center_x center_y size : float)
  : Result (list FPoint) :=
  for_in node_order
    (fun corners node =>
       angle <- str_getitem node_angles node ;;
       let x := center_x + size * np_cos angle in
       let y := center_y + size * np_sin angle in
       ret (corners ++ [(x, y)]))
    [].

Definition get_node_position (center_x center_y size : float)
    (node_ref : string) : Result FPoint :=
  corners <- hexagon_corners center_x center_y size ;;
  idx <- str_getitem node_map node_ref ;;
  list_getitem corners idx.

(** [sum(iterable)] and [total / len(positions)] on doubles. *)
Definition py_sum (l : list float) : float := fold_left PrimFloat.add l 0.

Definition div_len (total : float) (n : nat) : Result float :=
  if Nat.eqb n 0 then raise ZeroDivisionError
  else ret (total / of_Z (Z.of_nat n)).

Definition centroid (positions : list FPoint) : Result FPoint :=
  if Nat.eqb (List.length positions) 1
  then list_getitem positions 0
  else
    avg_x <- div_len (py_sum (map fst positions)) (List.length positions) ;;
    avg_y <- div_len (py_sum (map snd positions)) (List.length positions) ;;
    ret (avg_x, avg_y).

(** The position [visualize_map] computes for a node reference of a tile
    (lines 396, 397 and 413). *)
Definition corner_of (hex_size : float) (coord : Z * Z * Z) (node_ref : string)
  : Result FPoint :=
  let '(x, y, z) := coord in
  cube <- CubeCoord_new x y z ;;
  let '(px, py) := cube_to_pixel cube hex_size in
  get_node_position px py hex_size node_ref.

(** Two positions within [eps] of each other in both coordinates. *)
Definition close (eps : float) (p q : FPoint) : bool :=
  (PrimFloat.abs (fst p - fst q) <=? eps)
  && (PrimFloat.abs (snd p - snd q) <=? eps).

(** Table entries with the same identifier give positions within [eps]. *)
Definition entries_close (hex_size eps : float) (e1 e2 : NodeKey * Z) : bool :=
  if Z.eqb (snd e1) (snd e2)
  then match corner_of hex_size (fst (fst e1)) (snd (fst e1)),
             corner_of hex_size (fst (fst e2)) (snd (fst e2)) with
       | inr p, inr q => close eps p q
       | _, _ => false
       end
  else true.

Definition table_close (hex_size eps : float) (table : Dict NodeKey Z) : bool :=
  forallb (fun e1 => forallb (entries_close hex_size eps e1) table) table.
End Library.

(** The cosines and sines the C library returns, rounded to nearest, at
    the six angles of [node_angles]; no other argument occurs. *)
Definition libm_cos (angle : float) : float :=
  (if angle =? - np_pi / 2 then 0x1.1a62633145c07p-54
   else if angle =? - np_pi / 6 then 0x1.bb67ae8584cabp-1
   else if angle =? np_pi / 6 then 0x1.bb67ae8584cabp-1
   else if angle =? np_pi / 2 then 0x1.1a62633145c07p-54
   else if angle =? 5 * np_pi / 6 then -0x1.bb67ae8584cabp-1
   else if angle =? -5 * np_pi / 6 then -0x1.bb67ae8584cabp-1
   else nan)%float.

Definition libm_sin (angle : float) : float :=
  (if angle =? - np_pi / 2 then -1
   else if angle =? - np_pi / 6 then -0x1.fffffffffffffp-2
   else if angle =? np_pi / 6 then 0x1.fffffffffffffp-2
   else if angle =? np_pi / 2 then 1
   else if angle =? 5 * np_pi / 6 then 0x1.fffffffffffffp-2
   else if angle =? -5 * np_pi / 6 then -0x1.fffffffffffffp-2
   else nan)%float.

(** The hex size [main] passes for the mini map: the double nearest to
    0.6. *)
Definition mini_hex_size : float := 0x1.3333333333333p-1%float.

(** Two to the power -51, about 4.4e-16. *)
Definition rounding_bound : float := 0x1p-51%float.
End Float64.

(* ================================================================= *)
(** * Properties *)

(** ** Trigonometric values at the six corner angles *)

Section CornerAngles.
Local Open Scope R_scope.

Lemma cos_north : cos (- PI / 2) = 0.
Proof.
  replace (- PI / 2) with (- (PI / 2)) by lra.
  now rewrite cos_neg, cos_PI2.
Qed.

Lemma sin_north : sin (- PI / 2) = -1.
Proof.
  replace (- PI / 2) with (- (PI / 2)) by lra.
  rewrite sin_neg, sin_PI2. lra.
Qed.

Lemma cos_north_east : cos (- PI / 6) = sqrt 3 / 2.
Proof.
  replace (- PI / 6) with (- (PI / 6)) by lra.
  now rewrite cos_neg, cos_PI6.
Qed.

Lemma sin_north_east : sin (- PI / 6) = - (1 / 2).
Proof.
  replace (- PI / 6) with (- (PI / 6)) by lra.
  now rewrite sin_neg, sin_PI6.
Qed.

Lemma cos_south_west : cos (5 * PI / 6) = - (sqrt 3 / 2).
Proof.
  replace (5 * PI / 6) with (PI - PI / 6) by lra.
  rewrite cos_minus, cos_PI, sin_PI, cos_PI6. lra.
Qed.

Lemma sin_south_west : sin (5 * PI / 6) = 1 / 2.
Proof.
  replace (5 * PI / 6) with (PI - PI / 6) by lra.
  now rewrite sin_PI_x, sin_PI6.
Qed.

Lemma cos_north_west : cos (-5 * PI / 6) = - (sqrt 3 / 2).
Proof.
  replace (-5 * PI / 6) with (- (5 * PI / 6)) by lra.
  now rewrite cos_neg, cos_south_west.
Qed.

Lemma sin_north_west : sin (-5 * PI / 6) = - (1 / 2).
Proof.
  replace (-5 * PI / 6) with (- (5 * PI / 6)) by lra.
  now rewrite sin_neg, sin_south_west.
Qed.

(** The last corner is written [-5 pi / 6] in the source and
    [-pi/2 + 5 pi/3] in the specification: a full turn apart. *)
Lemma cos_full_turn (a : R) : cos (a + 2 * PI) = cos a.
Proof.
  replace (a + 2 * PI) with (a + PI + PI) by lra.
  rewrite !neg_cos. lra.
Qed.

Lemma sin_full_turn (a : R) : sin (a + 2 * PI) = sin a.
Proof.
  replace (a + 2 * PI) with (a + PI + PI) by lra.
  rewrite !neg_sin. lra.
Qed.

Lemma dist_polar (c : Point) (r theta : R) : dist (polar c r theta) c = Rabs r.
Proof.
  unfold dist, polar; cbn [fst snd].
  replace (Rsqr (fst c + r * cos theta - fst c) + Rsqr (snd c + r * sin theta - snd c))
    with (Rsqr r * (Rsqr (sin theta) + Rsqr (cos theta)))
    by (unfold Rsqr; ring).
  rewrite sin2_cos2, Rmult_1_r.
  apply sqrt_Rsqr_abs.
Qed.
End CornerAngles.

Lemma hexagon_corners_eq (cx cy s : R) :
  hexagon_corners cx cy s = inr (corner_points (cx, cy) s).
Proof. reflexivity. Qed.

Lemma corner_angle_source (k : nat) :
  (k < 6)%nat ->
  cos (corner_angle k) = cos (source_angle k) /\
  sin (corner_angle k) = sin (source_angle k).
Proof.
  intros Hk.
  assert (Hcases : (k = 0 \/ k = 1 \/ k = 2 \/ k = 3 \/ k = 4 \/ k = 5)%nat) by lia.
  destruct Hcases as [-> | [-> | [-> | [-> | [-> | ->]]]]];
    unfold corner_angle, source_angle; cbn [nth INR].
  1-5: split; f_equal; lra.
  replace (- PI / 2 + (1 + 1 + 1 + 1 + 1) * PI / 3)%R
    with (-5 * PI / 6 + 2 * PI)%R by lra.
  now rewrite cos_full_turn, sin_full_turn.
Qed.

Lemma polar_corner_angle (c : Point) (s : R) (k : nat) :
  (k < 6)%nat -> polar c s (source_angle k) = polar c s (corner_angle k).
Proof.
  intros Hk. destruct (corner_angle_source k Hk) as [Hc Hs].
  unfold polar. now rewrite Hc, Hs.
Qed.

(* ================================================================= *)
(** ** Dictionaries *)

Section DictFacts.
Context {K V : Type}.
Variable keq : K -> K -> bool.
Hypothesis keq_spec : forall a b, keq a b = true <-> a = b.

Lemma keq_refl (a : K) : keq a a = true.
Proof. now apply keq_spec. Qed.

Lemma keq_neq (a b : K) : a <> b -> keq a b = false.
Proof.
  intros Hne. destruct (keq a b) eqn:E; [| reflexivity].
  apply keq_spec in E. contradiction.
Qed.

Lemma dict_get_not_in (d : Dict K V) (k : K) :
  ~ In k (dict_keys d) -> dict_get keq d k = None.
Proof.
  induction d as [| [k' v'] d IH]; cbn; intros Hnot; [reflexivity |].
  rewrite keq_neq by (intros ->; apply Hnot; now left).
  apply IH. intros Hin. apply Hnot. now right.
Qed.

Lemma dict_get_in (d : Dict K V) (k : K) (v : V) :
  dict_get keq d k = Some v -> In (k, v) d.
Proof.
  induction d as [| [k' v'] d IH]; cbn; [discriminate |].
  destruct (keq k k') eqn:E.
  - apply keq_spec in E; subst k'. intros [= ->]. now left.
  - intros Hget. right. now apply IH.
Qed.

Lemma dict_get_in_keys (d : Dict K V) (k : K) (v : V) :
  dict_get keq d k = Some v -> In k (dict_keys d).
Proof.
  intros Hget. apply dict_get_in in Hget.
  unfold dict_keys. now apply (in_map fst) in Hget.
Qed.

Lemma dict_get_none_not_in (d : Dict K V) (k : K) :
  dict_get keq d k = None -> ~ In k (dict_keys d).
Proof.
  induction d as [| [k' v'] d IH]; cbn; [tauto |].
  destruct (keq k k') eqn:E; [discriminate |].
  intros Hget [Heq | Hin]; [| now apply IH].
  subst k'. now rewrite keq_refl in E.
Qed.

Lemma dict_get_nodup_in (d : Dict K V) (k : K) (v : V) :
  NoDup (dict_keys d) -> In (k, v) d -> dict_get keq d k = Some v.
Proof.
  induction d as [| [k' v'] d IH]; cbn; [tauto |].
  intros Hnd [Heq | Hin].
  - injection Heq as -> ->. now rewrite keq_refl.
  - inversion Hnd as [| ? ? Hnot Hnd']; subst.
    rewrite keq_neq; [now apply IH |].
    intros ->. apply Hnot. now apply (in_map fst) in Hin.
Qed.

Lemma dict_set_fresh (d : Dict K V) (k : K) (v : V) :
  dict_get keq d k = None -> dict_set keq d k v = d ++ [(k, v)].
Proof.
  induction d as [| [k' v'] d IH]; cbn; [reflexivity |].
  destruct (keq k k'); [discriminate |].
  intros Hget. now rewrite IH.
Qed.

Lemma dict_get_set_same (d : Dict K V) (k : K) (v : V) :
  dict_get keq (dict_set keq d k v) k = Some v.
Proof.
  induction d as [| [k' v'] d IH]; cbn.
  - now rewrite keq_refl.
  - destruct (keq k k') eqn:E; cbn; now rewrite E.
Qed.

Lemma dict_get_set_other (d : Dict K V) (k k' : K) (v : V) :
  k <> k' -> dict_get keq (dict_set keq d k v) k' = dict_get keq d k'.
Proof.
  intros Hne.
  induction d as [| [k0 v0] d IH]; cbn.
  - rewrite keq_neq; [reflexivity | congruence].
  - destruct (keq k k0) eqn:E; cbn.
    + apply keq_spec in E; subst k0.
      rewrite keq_neq; [reflexivity | congruence].
    + now rewrite IH.
Qed.

Lemma dict_keys_set (d : Dict K V) (k : K) (v : V) :
  dict_keys (dict_set keq d k v)
  = if dict_contains keq d k then dict_keys d else dict_keys d ++ [k].
Proof.
  unfold dict_contains, dict_keys.
  induction d as [| [k' v'] d IH]; cbn; [reflexivity |].
  destruct (keq k k') eqn:E; cbn; [reflexivity |].
  rewrite IH. now destruct (dict_get keq d k).
Qed.

Lemma dict_set_nodup (d : Dict K V) (k : K) (v : V) :
  NoDup (dict_keys d) -> NoDup (dict_keys (dict_set keq d k v)).
Proof.
  intros Hnd. rewrite dict_keys_set. unfold dict_contains.
  destruct (dict_get keq d k) eqn:Hget; [exact Hnd |].
  apply dict_get_none_not_in in Hget.
  apply NoDup_app; [exact Hnd | constructor; [tauto | constructor] |].
  intros a Ha [<- | []]. contradiction.
Qed.
Lemma dict_get_map_values {W : Type} (f : V -> W) (d : Dict K V) (k : K) :
  dict_get keq (map (fun kv => (fst kv, f (snd kv))) d) k
  = option_map f (dict_get keq d k).
Proof.
  induction d as [| [k' v'] d IH]; cbn; [reflexivity |].
  now destruct (keq k k').
Qed.
End DictFacts.

(* ================================================================= *)
(** ** CubeCoord *)

Lemma CubeCoord_new_inr (x y z : Z) (c : CubeCoord) :
  CubeCoord_new x y z = inr c ->
  c = MkCubeCoord x y z /\ (x + y + z = 0)%Z.
Proof.
  unfold CubeCoord_new, ret, raise.
  destruct (Z.eqb_spec (x + y + z) 0) as [Hsum | Hsum]; intros Hc.
  - injection Hc as <-. now split.
  - discriminate.
Qed.

(** C4. Constructing a [CubeCoord] raises if and only if [x + y + z] is
    not zero; a coordinate that was constructed holds the three arguments
    and satisfies [x + y + z = 0]. *)
Theorem CubeCoord_new_fails_iff_nonzero_sum (x y z : Z) :
  ((exists e, CubeCoord_new x y z = inl e) <-> (x + y + z <> 0)%Z) /\
  ((x + y + z <> 0)%Z ->
   CubeCoord_new x y z
   = inl (AssertionError "Cube coordinates must sum to zero")) /\
  (forall c, CubeCoord_new x y z = inr c ->
             c = MkCubeCoord x y z /\ (cube_x c + cube_y c + cube_z c = 0)%Z).
Proof.
  unfold CubeCoord_new, ret, raise.
  destruct (Z.eqb_spec (x + y + z) 0) as [Hsum | Hsum]; (split; [| split]).
  - split; [intros [e He]; discriminate | intros Hne; contradiction].
  - intros Hne; contradiction.
  - intros c Hc. injection Hc as <-. now split.
  - split; [intros _; exact Hsum | intros _; eexists; reflexivity].
  - reflexivity.
  - intros c Hc. discriminate.
Qed.

(* ================================================================= *)
(** ** Geometry *)

(** C1. For a coordinate built from [(x, y, z)], [cube_to_pixel] returns
    [(size * (sqrt 3 * x + sqrt 3 / 2 * z), size * 1.5 * z)]; at
    [(0, 0, 0)] this is the origin for every size, and at [(1, -1, 0)]
    with size 1 it is [(sqrt 3, 0)]. *)
Theorem cube_to_pixel_closed_form (x y z : Z) (size : R) (c : CubeCoord)
    (Hc : CubeCoord_new x y z = inr c) :
  cube_to_pixel c size
  = (size * (sqrt 3 * IZR x + sqrt 3 / 2 * IZR z), size * 1.5 * IZR z)%R /\
  ((x, y, z) = (0, 0, 0)%Z -> cube_to_pixel c size = (0, 0)%R) /\
  ((x, y, z) = (1, -1, 0)%Z -> size = 1%R ->
   cube_to_pixel c size = (sqrt 3, 0)%R).
Proof.
  destruct (CubeCoord_new_inr x y z c Hc) as [-> _].
  unfold cube_to_pixel; cbn [cube_x cube_z].
  split; [| split].
  - f_equal; lra.
  - intros [= -> -> ->]. f_equal; lra.
  - intros [= -> -> ->] ->. f_equal; lra.
Qed.

Lemma cube_to_pixel_closed_form_witness :
  CubeCoord_new 1 (-1) 0 = inr (MkCubeCoord 1 (-1) 0) /\
  cube_to_pixel (MkCubeCoord 1 (-1) 0) 1 = (sqrt 3, 0)%R.
Proof.
  split; [reflexivity |].
  apply (cube_to_pixel_closed_form 1 (-1) 0 1 (MkCubeCoord 1 (-1) 0));
    reflexivity.
Defined.

(** C2, as stated, fails for a negative size: the six points of
    [hexagon_corners 0 0 (-1)] are at distance 1, not -1, from the centre. *)
Lemma hexagon_corners_negative_size :
  exists corners,
    hexagon_corners 0 0 (-1) = inr corners /\
    exists p, In p corners /\ dist p (0, 0)%R <> (-1)%R.
Proof.
  eexists; split; [apply hexagon_corners_eq |].
  exists (polar (0, 0)%R (-1) (source_angle 0)); split.
  - now left.
  - rewrite dist_polar. unfold Rabs. destruct (Rcase_abs (-1)); lra.
Qed.

(** C2 (amended). [hexagon_corners] returns exactly six points; point [k]
    is the centre displaced by [size] along the angle [-pi/2 + k pi/3],
    in the order of [node_order], so it is at distance [|size|] from the
    centre, which is [size] itself when [size] is not negative. *)
Theorem hexagon_corners_spec (center_x center_y size : R) :
  exists corners,
    hexagon_corners center_x center_y size = inr corners /\
    List.length corners = 6%nat /\
    node_order = [ "North"; "NorthEast"; "SouthEast";
                   "South"; "SouthWest"; "NorthWest" ] /\
    corner_angle 0 = (- PI / 2)%R /\
    forall k, (k < 6)%nat ->
      corner_angle (S k) = (corner_angle k + PI / 3)%R /\
      nth k corners (center_x, center_y)
      = polar (center_x, center_y) size (corner_angle k) /\
      dist (nth k corners (center_x, center_y)) (center_x, center_y)
      = Rabs size /\
      (0 <= size ->
       dist (nth k corners (center_x, center_y)) (center_x, center_y) = size)%R.
Proof.
  eexists; split; [apply hexagon_corners_eq |].
  split; [reflexivity |]. split; [reflexivity |].
  split; [unfold corner_angle; cbn [INR]; lra |].
  intros k Hk.
  assert (Hnth : nth k (corner_points (center_x, center_y) size)
                   (center_x, center_y)
                 = polar (center_x, center_y) size (corner_angle k)).
  { rewrite <- polar_corner_angle by exact Hk.
    assert (Hcases : (k = 0 \/ k = 1 \/ k = 2 \/ k = 3 \/ k = 4 \/ k = 5)%nat) by lia.
    destruct Hcases as [-> | [-> | [-> | [-> | [-> | ->]]]]]; reflexivity. }
  rewrite Hnth, dist_polar.
  split; [| split; [reflexivity | split; [reflexivity |]]].
  - unfold corner_angle. rewrite S_INR. lra.
  - intros Hsize. now apply Rabs_right, Rle_ge.
Qed.

(** C10. [get_node_position] returns exactly on the six names of
    [node_order]: for the name at index [k] it returns element [k] of
    [hexagon_corners], and for any other string the lookup in [node_map]
    raises [KeyError]. *)
Theorem get_node_position_domain (center_x center_y size : R) (node_ref : string) :
  node_order = [ "North"; "NorthEast"; "SouthEast";
                 "South"; "SouthWest"; "NorthWest" ] /\
  exists corners,
    hexagon_corners center_x center_y size = inr corners /\
    (forall k, nth_error node_order k = Some node_ref ->
       exists p, nth_error corners k = Some p /\
                 get_node_position center_x center_y size node_ref = inr p) /\
    (~ In node_ref node_order ->
       get_node_position center_x center_y size node_ref
       = inl (KeyError node_ref)) /\
    ((exists p, get_node_position center_x center_y size node_ref = inr p)
     <-> In node_ref node_order).
Proof.
  split; [reflexivity |].
  eexists; split; [apply hexagon_corners_eq |].
  assert (Hin : forall k, nth_error node_order k = Some node_ref ->
            exists p,
              nth_error (corner_points (center_x, center_y) size) k = Some p /\
              get_node_position center_x center_y size node_ref = inr p).
  { intros k Hk.
    do 6 (destruct k as [| k];
          [injection Hk as <-; eexists; split; reflexivity |]).
    destruct k; discriminate. }
  assert (Hout : ~ In node_ref node_order ->
            get_node_position center_x center_y size node_ref
            = inl (KeyError node_ref)).
  { intros Hnot. unfold get_node_position.
    rewrite hexagon_corners_eq; cbn [bind].
    unfold str_getitem.
    rewrite (dict_get_not_in String.eqb String.eqb_eq); [reflexivity |].
    exact Hnot. }
  split; [exact Hin | split; [exact Hout |]].
  split.
  - intros [p Hp].
    destruct (in_dec string_dec node_ref node_order) as [Hyes | Hno];
      [exact Hyes |].
    rewrite (Hout Hno) in Hp. discriminate.
  - intros Hyes. destruct (In_nth_error _ _ Hyes) as [k Hk].
    destruct (Hin k Hk) as [p [_ Hp]]. now exists p.
Qed.

(* ================================================================= *)
(** ** Centroid collapsing *)

Lemma distinct_NoDup (l : list Z) : distinct l = true <-> NoDup l.
Proof.
  induction l as [| a l IH]; cbn.
  - split; [constructor | reflexivity].
  - rewrite andb_true_iff, negb_true_iff, IH. split.
    + intros [Hex Hnd]. constructor; [| exact Hnd].
      intros Hin.
      assert (Htrue : existsb (Z.eqb a) l = true)
        by (apply existsb_exists; exists a; split; [exact Hin | apply Z.eqb_refl]).
      congruence.
    + intros Hnd. inversion Hnd as [| ? ? Hnot Hnd']; subst. split; [| exact Hnd'].
      destruct (existsb (Z.eqb a) l) eqn:E; [| reflexivity].
      apply existsb_exists in E. destruct E as [b [Hb Hab]].
      apply Z.eqb_eq in Hab; subst b. contradiction.
Qed.

Lemma positions_wf_iff (d : Dict Z (list Point)) :
  positions_wf d = true <->
  NoDup (dict_keys d) /\ Forall (fun kv => snd kv <> []) d.
Proof.
  unfold positions_wf.
  rewrite andb_true_iff, distinct_NoDup, forallb_forall, Forall_forall.
  split; intros [Hnd Hne]; (split; [exact Hnd |]); intros kv Hin;
    specialize (Hne kv Hin); destruct (snd kv); congruence.
Qed.

Lemma fold_left_Rplus (l : list R) (a : R) :
  fold_left Rplus l a = (a + fold_right Rplus 0 l)%R.
Proof.
  revert a. induction l as [| b l IH]; intros a; cbn.
  - lra.
  - rewrite IH. lra.
Qed.

Lemma py_sum_fold_right (l : list R) : py_sum l = fold_right Rplus 0%R l.
Proof. unfold py_sum. rewrite fold_left_Rplus. lra. Qed.

Lemma centroid_mean (positions : list Point) :
  positions <> [] -> centroid positions = inr (mean_point positions).
Proof.
  destruct positions as [| p [| q rest]]; [congruence | |]; intros _.
  - destruct p as [px py]. unfold centroid, mean_point, arithmetic_mean.
    cbn. unfold ret. do 2 f_equal; lra.
  - unfold centroid, mean_point, arithmetic_mean, div_len.
    rewrite !py_sum_fold_right, !length_map. reflexivity.
Qed.

Lemma mean_point_singleton (p : Point) : mean_point [p] = p.
Proof.
  destruct p as [px py]. unfold mean_point, arithmetic_mean. cbn.
  f_equal; lra.
Qed.

Lemma mean_point_pair (p q : Point) : mean_point [p; q] = midpoint p q.
Proof.
  unfold mean_point, arithmetic_mean, midpoint. cbn. f_equal; lra.
Qed.

Lemma midpoint_same (p : Point) : midpoint p p = p.
Proof. destruct p as [px py]. unfold midpoint. cbn. f_equal; lra. Qed.

Lemma collapse_loop (d : Dict Z (list Point)) (acc : Dict Z Point) :
  Forall (fun kv => snd kv <> []) d ->
  NoDup (dict_keys acc ++ dict_keys d) ->
  for_in d
    (fun node_positions item =>
       let '(node_id, positions) := item in
       p <- centroid positions ;;
       ret (dict_set Z.eqb node_positions node_id p))
    acc
  = inr (acc ++ map (fun kv => (fst kv, mean_point (snd kv))) d).
Proof.
  revert acc. induction d as [| [node_id positions] d IH]; intros acc Hne Hnd.
  - cbn. now rewrite app_nil_r.
  - inversion Hne as [| ? ? Hfirst Hrest]; subst.
    cbn [for_in]. cbn [snd] in Hfirst.
    rewrite (centroid_mean positions Hfirst). cbn [bind ret].
    rewrite (dict_set_fresh Z.eqb).
    + rewrite IH; [| exact Hrest |].
      * now rewrite <- app_assoc.
      * unfold dict_keys in *. rewrite map_app, <- app_assoc. exact Hnd.
    + apply (dict_get_not_in Z.eqb Z.eqb_eq).
      apply NoDup_remove_2 in Hnd. intros Hin. apply Hnd.
      apply in_or_app. now left.
Qed.

Lemma collapse_positions_map (d : Dict Z (list Point)) :
  positions_wf d = true ->
  collapse_positions d
  = inr (collapsed d).
Proof.
  intros Hwf. apply positions_wf_iff in Hwf. destruct Hwf as [Hnd Hne].
  unfold collapse_positions. now rewrite collapse_loop.
Qed.

(** C3. The collapsing loop maps every node identifier to the arithmetic
    mean of the x coordinates and of the y coordinates of its positions;
    one position is returned unchanged, two identical positions give that
    position, two positions give their midpoint. *)
Theorem collapse_positions_is_mean (d : Dict Z (list Point))
    (Hwf : positions_wf d = true) :
  exists node_positions,
    collapse_positions d = inr node_positions /\
    dict_keys node_positions = dict_keys d /\
    forall node_id positions,
      dict_get Z.eqb d node_id = Some positions ->
      positions <> [] /\
      centroid positions = inr (mean_point positions) /\
      dict_get Z.eqb node_positions node_id = Some (mean_point positions) /\
      (forall p, positions = [p] -> mean_point positions = p) /\
      (forall p, positions = [p; p] -> mean_point positions = p) /\
      (forall p q, positions = [p; q] -> mean_point positions = midpoint p q).
Proof.
  eexists. split; [now apply collapse_positions_map |].
  split; [unfold dict_keys, collapsed; rewrite map_map; reflexivity |].
  intros node_id positions Hget.
  assert (Hne : positions <> []).
  { apply positions_wf_iff in Hwf. destruct Hwf as [_ Hall].
    rewrite Forall_forall in Hall.
    exact (Hall _ (dict_get_in Z.eqb Z.eqb_eq _ _ _ Hget)). }
  split; [exact Hne |].
  split; [now apply centroid_mean |].
  split; [unfold collapsed; rewrite dict_get_map_values, Hget; reflexivity |].
  split; [| split].
  - intros p ->. apply mean_point_singleton.
  - intros p ->. rewrite mean_point_pair. apply midpoint_same.
  - intros p q ->. apply mean_point_pair.
Qed.

Lemma collapse_positions_is_mean_witness :
  exists node_positions,
    collapse_positions [(5%Z, [(0, 0)%R; (2, 4)%R])] = inr node_positions /\
    dict_get Z.eqb node_positions 5%Z = Some (midpoint (0, 0)%R (2, 4)%R).
Proof.
  destruct (collapse_positions_is_mean [(5%Z, [(0, 0)%R; (2, 4)%R])] eq_refl)
    as [node_positions [Hrun [_ Hall]]].
  exists node_positions. split; [exact Hrun |].
  destruct (Hall 5%Z [(0, 0)%R; (2, 4)%R] eq_refl) as [_ [_ [Hget [_ [_ Hmid]]]]].
  rewrite Hget. f_equal. now apply Hmid.
Defined.

(* ================================================================= *)
(** ** Node collection *)

Lemma NodeKey_eqb_eq (a b : NodeKey) : NodeKey_eqb a b = true <-> a = b.
Proof.
  destruct a as [[[ax ay] az] ar], b as [[[bx by_] bz] br].
  unfold NodeKey_eqb.
  rewrite !andb_true_iff, !Z.eqb_eq, String.eqb_eq.
  split; [intros [[[-> ->] ->] ->]; reflexivity | intros [= -> -> -> ->]; tauto].
Qed.

Lemma get_node_position_node_point (px py s : R) (node_ref : string) :
  In node_ref node_order ->
  get_node_position px py s node_ref = inr (node_point (px, py) s node_ref).
Proof.
  intros Hin.
  repeat (destruct Hin as [<- | Hin]; [reflexivity |]).
  destruct Hin.
Qed.

Lemma lookup_list_append (d : Dict Z (list Point)) (k id : Z) (p : Point) :
  lookup_list (defaultdict_append d k p) id
  = if Z.eqb k id then lookup_list d id ++ [p] else lookup_list d id.
Proof.
  unfold lookup_list, defaultdict_append.
  destruct (Z.eqb_spec k id) as [<- | Hne].
  - destruct (dict_get Z.eqb d k);
      now rewrite (dict_get_set_same Z.eqb Z.eqb_eq).
  - destruct (dict_get Z.eqb d k);
      now rewrite (dict_get_set_other Z.eqb Z.eqb_eq) by exact Hne.
Qed.

Lemma dict_set_values {W : Type} (Q : W -> Prop) (d : Dict Z W) (k : Z) (v : W) :
  Forall (fun kv => Q (snd kv)) d -> Q v ->
  Forall (fun kv => Q (snd kv)) (dict_set Z.eqb d k v).
Proof.
  intros Hall Hv.
  induction d as [| [k' v'] d IH]; cbn.
  - now constructor.
  - inversion Hall as [| ? ? Hhead Htail]; subst.
    destruct (Z.eqb k k'); constructor; auto.
Qed.

Lemma positions_wf_append (d : Dict Z (list Point)) (k : Z) (p : Point) :
  positions_wf d = true -> positions_wf (defaultdict_append d k p) = true.
Proof.
  rewrite !positions_wf_iff. intros [Hnd Hne].
  unfold defaultdict_append.
  destruct (dict_get Z.eqb d k) as [l |]; split;
    try (now apply (dict_set_nodup Z.eqb Z.eqb_eq));
    apply (dict_set_values (fun l => l <> [])); try exact Hne.
  - now destruct l.
  - discriminate.
Qed.

Lemma positions_wf_lookup (d : Dict Z (list Point)) (id : Z) :
  positions_wf d = true ->
  lookup_list d id <> [] ->
  dict_get Z.eqb d id = Some (lookup_list d id).
Proof.
  intros _. unfold lookup_list.
  destruct (dict_get Z.eqb d id); [reflexivity | congruence].
Qed.

Section CollectNodes.
Variable table : Dict NodeKey Z.
Variable coord : Z * Z * Z.
Variables px py hex_size : R.

Lemma collect_node_eq (node_ref : string) (d : Dict Z (list Point))
    (probes : list NodeKey) :
  In node_ref node_order ->
  collect_node table coord px py hex_size (d, probes) node_ref
  = inr (collect_step table coord (px, py) hex_size d node_ref,
         probes ++ [(coord, node_ref)]).
Proof.
  intros Hin. unfold collect_node, collect_step.
  destruct (dict_get NodeKey_eqb table (coord, node_ref)) as [node_id |];
    [| reflexivity].
  rewrite (get_node_position_node_point px py hex_size node_ref Hin).
  unfold bind, ret.
  now destruct (node_point (px, py) hex_size node_ref).
Qed.

Lemma collect_loop (refs : list string) (d : Dict Z (list Point))
    (probes : list NodeKey) :
  incl refs node_order ->
  for_in refs (collect_node table coord px py hex_size) (d, probes)
  = inr (fold_left (collect_step table coord (px, py) hex_size) refs d,
         probes ++ map (fun node_ref => (coord, node_ref)) refs).
Proof.
  revert d probes. induction refs as [| node_ref refs IH]; intros d probes Hincl.
  - cbn. now rewrite app_nil_r.
  - cbn [for_in fold_left map].
    rewrite collect_node_eq by (apply Hincl; now left).
    unfold bind at 1.
    rewrite IH by (intros r Hr; apply Hincl; now right).
    now rewrite <- app_assoc.
Qed.

Lemma collect_nodes_eq (d : Dict Z (list Point)) (probes : list NodeKey) :
  collect_nodes table coord px py hex_size (d, probes)
  = inr (fold_left (collect_step table coord (px, py) hex_size) node_order d,
         probes ++ map (fun node_ref => (coord, node_ref)) node_order).
Proof. apply (collect_loop node_order). apply incl_refl. Qed.

End CollectNodes.

Section CollectSteps.
Variable table : Dict NodeKey Z.
Variable coord : Z * Z * Z.
Variable center : Point.
Variable hex_size : R.

Lemma collect_steps_wf (refs : list string) (d : Dict Z (list Point)) :
  positions_wf d = true ->
  positions_wf (fold_left (collect_step table coord center hex_size) refs d)
  = true.
Proof.
  revert d. induction refs as [| node_ref refs IH]; intros d Hwf; [exact Hwf |].
  cbn [fold_left]. apply IH. unfold collect_step.
  destruct (dict_get NodeKey_eqb table (coord, node_ref));
    [now apply positions_wf_append | exact Hwf].
Qed.

Lemma collect_steps_lookup (refs : list string) (d : Dict Z (list Point))
    (id : Z) :
  lookup_list (fold_left (collect_step table coord center hex_size) refs d) id
  = lookup_list d id ++
    flat_map
      (fun node_ref =>
         match dict_get NodeKey_eqb table (coord, node_ref) with
         | Some n =>
             if Z.eqb n id then [node_point center hex_size node_ref] else []
         | None => []
         end)
      refs.
Proof.
  revert d. induction refs as [| node_ref refs IH]; intros d.
  - cbn. now rewrite app_nil_r.
  - cbn [fold_left flat_map]. rewrite IH. unfold collect_step.
    destruct (dict_get NodeKey_eqb table (coord, node_ref)) as [n |].
    + rewrite lookup_list_append.
      destruct (Z.eqb n id); [now rewrite <- app_assoc | reflexivity].
    + reflexivity.
Qed.
End CollectSteps.

(* ================================================================= *)
(** ** The tile loop *)

Lemma valid_topology_cons (e : (Z * Z * Z) * string)
    (topology : list ((Z * Z * Z) * string)) :
  valid_topology (e :: topology) = true <->
  (let '(x, y, z) := fst e in (x + y + z = 0)%Z) /\
  valid_topology topology = true.
Proof.
  destruct e as [[[x y] z] t]. unfold valid_topology. cbn [forallb fst].
  now rewrite andb_true_iff, Z.eqb_eq.
Qed.

Lemma visit_tile_eq (hex_size : R) (node_ids : option (Dict NodeKey Z))
    (st : TileLoop) (x y z : Z) (tile_type : string) :
  (x + y + z = 0)%Z ->
  visit_tile hex_size node_ids st ((x, y, z), tile_type)
  = inr (visited hex_size node_ids st ((x, y, z), tile_type)).
Proof.
  intros Hsum. unfold visit_tile, CubeCoord_new.
  rewrite (proj2 (Z.eqb_eq _ _) Hsum). cbn [bind ret].
  unfold cube_to_pixel at 1. cbn zeta.
  unfold draw_hexagon. rewrite hexagon_corners_eq. cbn [bind ret str_truthy].
  unfold visited.
  destruct (node_ids_truthy node_ids) eqn:Htruthy; [| reflexivity].
  destruct node_ids as [table |]; [| discriminate].
  rewrite collect_nodes_eq. reflexivity.
Qed.

Lemma tile_loop_eq (hex_size : R) (node_ids : option (Dict NodeKey Z))
    (topology : list ((Z * Z * Z) * string)) (st : TileLoop) :
  valid_topology topology = true ->
  for_in topology (visit_tile hex_size node_ids) st
  = inr (fold_left (visited hex_size node_ids) topology st).
Proof.
  revert st. induction topology as [| e topology IH]; intros st Hvalid.
  - reflexivity.
  - apply valid_topology_cons in Hvalid. destruct Hvalid as [Hsum Hvalid].
    destruct e as [[[x y] z] t]. cbn [fst] in Hsum.
    cbn [for_in fold_left]. rewrite visit_tile_eq by exact Hsum.
    unfold bind. now apply IH.
Qed.

Section VisitedFacts.
Variable hex_size : R.
Variable node_ids : option (Dict NodeKey Z).

Lemma visited_ax_calls (topology : list ((Z * Z * Z) * string)) (st : TileLoop) :
  ax_calls (fold_left (visited hex_size node_ids) topology st)
  = ax_calls st ++ map (tile_polygon hex_size) topology.
Proof.
  revert st. induction topology as [| e topology IH]; intros st; cbn [fold_left map].
  - now rewrite app_nil_r.
  - rewrite IH. cbn [visited ax_calls]. now rewrite <- app_assoc.
Qed.

Lemma visited_coords_pixels (topology : list ((Z * Z * Z) * string))
    (st : TileLoop) :
  coords_pixels (fold_left (visited hex_size node_ids) topology st)
  = coords_pixels st ++ map (tile_pixel hex_size) topology.
Proof.
  revert st. induction topology as [| e topology IH]; intros st; cbn [fold_left map].
  - now rewrite app_nil_r.
  - rewrite IH. cbn [visited coords_pixels]. now rewrite <- app_assoc.
Qed.

Lemma visited_falsy (topology : list ((Z * Z * Z) * string)) (st : TileLoop) :
  node_ids_truthy node_ids = false ->
  node_id_to_positions (fold_left (visited hex_size node_ids) topology st)
  = node_id_to_positions st /\
  lookups (fold_left (visited hex_size node_ids) topology st) = lookups st.
Proof.
  intros Hfalsy. revert st.
  induction topology as [| e topology IH]; intros st; cbn [fold_left].
  - now split.
  - destruct (IH (visited hex_size node_ids st e)) as [-> ->].
    unfold visited. rewrite Hfalsy. now split.
Qed.

Lemma visited_wf (topology : list ((Z * Z * Z) * string)) (st : TileLoop) :
  positions_wf (node_id_to_positions st) = true ->
  positions_wf
    (node_id_to_positions (fold_left (visited hex_size node_ids) topology st))
  = true.
Proof.
  revert st. induction topology as [| e topology IH]; intros st Hwf; cbn [fold_left].
  - exact Hwf.
  - apply IH. unfold visited; cbn [node_id_to_positions].
    destruct (node_ids_truthy node_ids); [| exact Hwf].
    now apply collect_steps_wf.
Qed.

Lemma visited_lookup (topology : list ((Z * Z * Z) * string)) (st : TileLoop)
    (id : Z) :
  node_ids_truthy node_ids = true ->
  lookup_list
    (node_id_to_positions (fold_left (visited hex_size node_ids) topology st)) id
  = lookup_list (node_id_to_positions st) id ++
    contributions (table_of node_ids) hex_size topology id.
Proof.
  intros Htruthy. revert st.
  induction topology as [| e topology IH]; intros st; cbn [fold_left].
  - unfold contributions. cbn. now rewrite app_nil_r.
  - rewrite IH. unfold visited at 1; cbn [node_id_to_positions].
    rewrite Htruthy, collect_steps_lookup.
    unfold contributions. cbn [flat_map]. unfold tile_contributions at 2.
    now rewrite <- app_assoc.
Qed.

Lemma visited_lookups (topology : list ((Z * Z * Z) * string)) (st : TileLoop) :
  node_ids_truthy node_ids = true ->
  lookups (fold_left (visited hex_size node_ids) topology st)
  = lookups st ++
    flat_map (fun e => map (fun node_ref => (fst e, node_ref)) node_order)
      topology.
Proof.
  intros Htruthy. revert st.
  induction topology as [| e topology IH]; intros st; cbn [fold_left flat_map].
  - now rewrite app_nil_r.
  - rewrite IH. unfold visited at 1; cbn [lookups].
    rewrite Htruthy. now rewrite <- app_assoc.
Qed.
End VisitedFacts.

(* ================================================================= *)
(** ** The whole rendering *)

Lemma draw_labels_eq (hex_size : R) (node_positions : Dict Z Point)
    (ax : list DrawCall) :
  draw_labels hex_size node_positions ax = ax ++ label_calls hex_size node_positions.
Proof.
  unfold draw_labels, label_calls. revert ax.
  induction node_positions as [| [node_id [node_x node_y]] rest IH]; intros ax.
  - cbn. now rewrite app_nil_r.
  - cbn [fold_left flat_map fst snd]. rewrite IH. now rewrite <- app_assoc.
Qed.

Lemma set_limits_eq (hex_size : R) (coords : list (R * R * string))
    (ax : list DrawCall) :
  set_limits hex_size coords ax = ax ++ set_limits hex_size coords [].
Proof.
  destruct coords as [| first rest]; cbn [set_limits].
  - now rewrite app_nil_r.
  - reflexivity.
Qed.

Lemma visualize_map_eq (topology : list ((Z * Z * Z) * string))
    (title filename : string) (hex_size : R)
    (node_ids : option (Dict NodeKey Z)) :
  valid_topology topology = true ->
  visualize_map topology title filename hex_size node_ids
  = inr (MkRendering
           (ax_calls (fold_left (visited hex_size node_ids) topology initial_state)
            ++ label_calls hex_size
                 (collapsed (node_id_to_positions
                    (fold_left (visited hex_size node_ids) topology initial_state)))
            ++ closing_calls topology title filename hex_size
                 (coords_pixels
                    (fold_left (visited hex_size node_ids) topology initial_state))
                 (List.length
                    (collapsed (node_id_to_positions
                       (fold_left (visited hex_size node_ids) topology
                          initial_state)))))
           (lookups (fold_left (visited hex_size node_ids) topology initial_state))).
Proof.
  intros Hvalid. unfold visualize_map.
  fold initial_state.
  rewrite tile_loop_eq by exact Hvalid. cbn [bind].
  rewrite collapse_positions_map by (now apply visited_wf).
  cbn [bind].
  change (str_getitem colors TileTemplate.LAND) with (@inr PyError string "#8B4513").
  change (str_getitem colors TileTemplate.WATER) with (@inr PyError string "#4169E1").
  change (str_getitem colors TileTemplate.PORT) with (@inr PyError string "#FFD700").
  cbn [bind]. unfold ret. do 2 f_equal.
  rewrite set_limits_eq, draw_labels_eq. unfold closing_calls.
  now rewrite <- !app_assoc.
Qed.

Lemma hexagons_app (l1 l2 : list DrawCall) :
  hexagons (l1 ++ l2) = hexagons l1 ++ hexagons l2.
Proof. apply flat_map_app. Qed.

Lemma circles_app (l1 l2 : list DrawCall) :
  circles (l1 ++ l2) = circles l1 ++ circles l2.
Proof. apply flat_map_app. Qed.

Lemma hexagons_tile_polygons (hex_size : R)
    (topology : list ((Z * Z * Z) * string)) :
  hexagons (map (tile_polygon hex_size) topology)
  = map (fun e => corner_points (tile_center hex_size (fst e)) hex_size) topology.
Proof.
  induction topology as [| e topology IH]; [reflexivity |].
  cbn [map]. rewrite <- IH. reflexivity.
Qed.

Lemma circles_tile_polygons (hex_size : R)
    (topology : list ((Z * Z * Z) * string)) :
  circles (map (tile_polygon hex_size) topology) = [].
Proof. induction topology as [| e topology IH]; [reflexivity | exact IH]. Qed.

Lemma hexagons_label_calls (hex_size : R) (node_positions : Dict Z Point) :
  hexagons (label_calls hex_size node_positions) = [].
Proof.
  induction node_positions as [| item rest IH]; [reflexivity | exact IH].
Qed.

Lemma circles_label_calls (hex_size : R) (node_positions : Dict Z Point) :
  circles (label_calls hex_size node_positions) = map snd node_positions.
Proof.
  induction node_positions as [| item rest IH]; [reflexivity |].
  cbn [map]. rewrite <- IH. reflexivity.
Qed.

Lemma closing_calls_plain (topology : list ((Z * Z * Z) * string))
    (title filename : string) (hex_size : R) (coords : list (R * R * string))
    (node_count : nat) :
  hexagons (closing_calls topology title filename hex_size coords node_count) = [] /\
  circles (closing_calls topology title filename hex_size coords node_count) = [].
Proof. destruct coords; split; reflexivity. Qed.

Lemma node_labels_skip (l1 l2 : list DrawCall) :
  circles l1 = [] -> node_labels (l1 ++ l2) = node_labels l2.
Proof.
  induction l1 as [| c l1 IH]; intros Hnone; [reflexivity |].
  destruct c; try discriminate Hnone; cbn in Hnone |- *; now apply IH.
Qed.

Lemma node_labels_plain (l : list DrawCall) : circles l = [] -> node_labels l = [].
Proof.
  intros Hnone. rewrite <- (app_nil_r l). now rewrite node_labels_skip.
Qed.

Lemma node_labels_label_calls (hex_size : R) (node_positions : Dict Z Point)
    (rest : list DrawCall) :
  node_labels (label_calls hex_size node_positions ++ rest)
  = map (fun item => (snd item, str_of_Z (fst item))) node_positions
    ++ node_labels rest.
Proof.
  induction node_positions as [| item more IH]; [reflexivity |].
  cbn [map]. rewrite <- app_comm_cons, <- IH. reflexivity.
Qed.

(** What a rendering of a valid topology shows: one hexagon per tile and
    one label per collapsed node position. *)
Lemma visualize_map_observed (topology : list ((Z * Z * Z) * string))
    (title filename : string) (hex_size : R)
    (node_ids : option (Dict NodeKey Z)) :
  valid_topology topology = true ->
  exists r,
    visualize_map topology title filename hex_size node_ids = inr r /\
    hexagons (drawn r)
    = map (fun e => corner_points (tile_center hex_size (fst e)) hex_size)
        topology /\
    circles (drawn r)
    = map snd (collapsed (node_id_to_positions
                 (fold_left (visited hex_size node_ids) topology initial_state))) /\
    node_labels (drawn r)
    = map (fun item => (snd item, str_of_Z (fst item)))
        (collapsed (node_id_to_positions
           (fold_left (visited hex_size node_ids) topology initial_state))) /\
    probed r
    = lookups (fold_left (visited hex_size node_ids) topology initial_state).
Proof.
  intros Hvalid. eexists. split; [now apply visualize_map_eq |].
  cbn [drawn probed]. rewrite visited_ax_calls.
  match goal with
  | |- context [closing_calls ?t ?ti ?f ?s ?c ?n] =>
      destruct (closing_calls_plain t ti f s c n) as [Hh Hc]
  end.
  repeat split.
  - rewrite !hexagons_app, hexagons_tile_polygons, hexagons_label_calls, Hh.
    cbn [initial_state ax_calls]. cbn [hexagons flat_map app].
    now rewrite app_nil_r.
  - rewrite !circles_app, circles_tile_polygons, circles_label_calls, Hc.
    cbn [initial_state ax_calls]. cbn [circles flat_map app].
    now rewrite app_nil_r.
  - rewrite node_labels_skip.
    + rewrite node_labels_label_calls, (node_labels_plain _ Hc).
      now rewrite app_nil_r.
    + rewrite circles_app, circles_tile_polygons. reflexivity.
Qed.

Lemma visit_tile_invalid (hex_size : R) (node_ids : option (Dict NodeKey Z))
    (st : TileLoop) (x y z : Z) (tile_type : string) :
  (x + y + z <> 0)%Z ->
  visit_tile hex_size node_ids st ((x, y, z), tile_type)
  = inl (AssertionError "Cube coordinates must sum to zero").
Proof.
  intros Hsum. unfold visit_tile, CubeCoord_new.
  now rewrite (proj2 (Z.eqb_neq _ _) Hsum).
Qed.

Lemma tile_loop_valid (hex_size : R) (node_ids : option (Dict NodeKey Z))
    (topology : list ((Z * Z * Z) * string)) (st st' : TileLoop) :
  for_in topology (visit_tile hex_size node_ids) st = inr st' ->
  valid_topology topology = true.
Proof.
  revert st. induction topology as [| e topology IH]; intros st Hrun;
    [reflexivity |].
  destruct e as [[[x y] z] t]. apply valid_topology_cons. cbn [fst].
  destruct (Z.eq_dec (x + y + z) 0) as [Hsum | Hsum].
  - split; [exact Hsum |].
    cbn [for_in] in Hrun. rewrite visit_tile_eq in Hrun by exact Hsum.
    unfold bind in Hrun. exact (IH _ Hrun).
  - cbn [for_in] in Hrun. rewrite visit_tile_invalid in Hrun by exact Hsum.
    discriminate.
Qed.

Lemma visualize_map_valid (topology : list ((Z * Z * Z) * string))
    (title filename : string) (hex_size : R)
    (node_ids : option (Dict NodeKey Z)) (r : Rendering) :
  visualize_map topology title filename hex_size node_ids = inr r ->
  valid_topology topology = true.
Proof.
  unfold visualize_map. intros Hrun.
  destruct (for_in topology (visit_tile hex_size node_ids) _) as [e | st] eqn:Hloop;
    [discriminate |].
  exact (tile_loop_valid _ _ _ _ _ Hloop).
Qed.

(** C7. Rendering the single Land tile [(0, 0, 0)] without a node-ID
    table draws exactly one hexagon and no node label. *)
Theorem single_land_tile_without_table (title filename : string) (hex_size : R) :
  exists r,
    visualize_map [((0, 0, 0)%Z, TileTemplate.LAND)] title filename hex_size None
    = inr r /\
    hexagons (drawn r)
    = [corner_points (cube_to_pixel (MkCubeCoord 0 0 0) hex_size) hex_size] /\
    List.length (hexagons (drawn r)) = 1%nat /\
    circles (drawn r) = [] /\
    node_labels (drawn r) = [] /\
    probed r = [].
Proof.
  eexists. split; [reflexivity |]. repeat split.
Qed.

(** C9. An empty node-ID table behaves exactly as no table: the
    collection step is not entered, no key is looked up and no label is
    drawn. *)
Theorem empty_table_same_as_none (topology : list ((Z * Z * Z) * string))
    (title filename : string) (hex_size : R) :
  node_ids_truthy (Some []) = false /\
  visualize_map topology title filename hex_size (Some [])
  = visualize_map topology title filename hex_size None /\
  forall r,
    visualize_map topology title filename hex_size (Some []) = inr r ->
    probed r = [] /\ circles (drawn r) = [] /\ node_labels (drawn r) = [].
Proof.
  split; [reflexivity |]. split; [reflexivity |].
  intros r Hrun.
  pose proof (visualize_map_valid _ _ _ _ _ _ Hrun) as Hvalid.
  destruct (visualize_map_observed topology title filename hex_size (Some [])
              Hvalid) as [r' [Hrun' [_ [Hcircles [Hlabels Hprobed]]]]].
  rewrite Hrun in Hrun'. injection Hrun' as <-.
  destruct (visited_falsy hex_size (Some []) topology initial_state eq_refl)
    as [Hpos Hlook].
  rewrite Hpos in Hcircles, Hlabels. rewrite Hlook in Hprobed.
  now repeat split.
Qed.

(** C6. A (coordinate, direction) pair that is absent from the node-ID
    table is skipped: the loop body returns normally with the positions
    unchanged, the tile contributes one position per direction that is
    present (one instead of six in the example), and rendering a valid
    topology returns whatever the table holds. *)
Theorem missing_node_mapping_skipped (topology : list ((Z * Z * Z) * string))
    (title filename : string) (hex_size : R)
    (node_ids : option (Dict NodeKey Z))
    (Hvalid : valid_topology topology = true) :
  (exists r, visualize_map topology title filename hex_size node_ids = inr r) /\
  (forall table coord px py positions probes node_ref,
     dict_get NodeKey_eqb table (coord, node_ref) = None ->
     collect_node table coord px py hex_size (positions, probes) node_ref
     = inr (positions, probes ++ [(coord, node_ref)])) /\
  (forall table coord px py positions probes,
     exists positions' probes',
       collect_nodes table coord px py hex_size (positions, probes)
       = inr (positions', probes') /\
       forall node_id,
         lookup_list positions' node_id
         = lookup_list positions node_id ++
           flat_map
             (fun node_ref =>
                match dict_get NodeKey_eqb table (coord, node_ref) with
                | Some n =>
                    if Z.eqb n node_id
                    then [node_point (px, py) hex_size node_ref]
                    else []
                | None => []
                end)
             node_order) /\
  (forall px py,
     collect_nodes [(((0, 0, 0)%Z, NodeRef.North), 7%Z)] (0, 0, 0)%Z px py
       hex_size ([], [])
     = inr ([(7%Z, [node_point (px, py) hex_size NodeRef.North])],
            map (fun node_ref => ((0, 0, 0)%Z, node_ref)) node_order)).
Proof.
  split; [| split; [| split]].
  - destruct (visualize_map_observed topology title filename hex_size node_ids
                Hvalid) as [r [Hrun _]].
    now exists r.
  - intros table coord px py positions probes node_ref Habsent.
    unfold collect_node. now rewrite Habsent.
  - intros table coord px py positions probes.
    do 2 eexists. split; [apply collect_nodes_eq |].
    intros node_id. apply collect_steps_lookup.
  - intros px py. rewrite collect_nodes_eq. reflexivity.
Qed.

Lemma missing_node_mapping_skipped_witness :
  exists r,
    visualize_map [((0, 0, 0)%Z, TileTemplate.LAND); ((1, -1, 0)%Z, TileTemplate.WATER)]
      "t" "f" 1%R (Some [(((0, 0, 0)%Z, NodeRef.North), 7%Z)]) = inr r.
Proof.
  exact (proj1 (missing_node_mapping_skipped
                  [((0, 0, 0)%Z, TileTemplate.LAND); ((1, -1, 0)%Z, TileTemplate.WATER)]
                  "t" "f" 1%R (Some [(((0, 0, 0)%Z, NodeRef.North), 7%Z)])
                  eq_refl)).
Defined.

(* ================================================================= *)
(** ** Positions that coincide *)

Lemma sum_constant (l : list R) (a : R) :
  (forall b, In b l -> b = a) ->
  fold_right Rplus 0%R l = (INR (List.length l) * a)%R.
Proof.
  induction l as [| b l IH]; intros Hall.
  - cbn. lra.
  - cbn [fold_right List.length]. rewrite S_INR.
    rewrite IH by (intros c Hc; apply Hall; now right).
    rewrite (Hall b) by now left. lra.
Qed.

Lemma arithmetic_mean_constant (l : list R) (a : R) :
  l <> [] -> (forall b, In b l -> b = a) -> arithmetic_mean l = a.
Proof.
  intros Hne Hall. unfold arithmetic_mean. rewrite (sum_constant l a Hall).
  field. apply not_0_INR. now destruct l.
Qed.

Lemma mean_point_constant (l : list Point) (p : Point) :
  l <> [] -> (forall q, In q l -> q = p) -> mean_point l = p.
Proof.
  intros Hne Hall. destruct p as [px py]. unfold mean_point.
  f_equal; apply arithmetic_mean_constant;
    try (destruct l; [congruence | discriminate]);
    intros b Hb; apply in_map_iff in Hb; destruct Hb as [q [<- Hq]];
    now rewrite (Hall q Hq).
Qed.

Lemma positions_single (d : Dict Z (list Point)) (n : Z) :
  positions_wf d = true ->
  (forall id, id <> n -> lookup_list d id = []) ->
  lookup_list d n <> [] ->
  d = [(n, lookup_list d n)].
Proof.
  intros Hwf Hothers Hn.
  apply positions_wf_iff in Hwf. destruct Hwf as [Hnd Hne].
  assert (Hkey : forall k l, In (k, l) d -> k = n /\ l = lookup_list d n).
  { intros k l Hin.
    pose proof (dict_get_nodup_in Z.eqb Z.eqb_eq d k l Hnd Hin) as Hget.
    assert (Hl : l <> []).
    { rewrite Forall_forall in Hne. exact (Hne _ Hin). }
    destruct (Z.eq_dec k n) as [-> | Hkn].
    - split; [reflexivity |]. unfold lookup_list. now rewrite Hget.
    - specialize (Hothers k Hkn). unfold lookup_list in Hothers.
      rewrite Hget in Hothers. contradiction. }
  destruct d as [| [k l] d]; [now contradiction Hn |].
  destruct (Hkey k l (or_introl eq_refl)) as [-> Hl].
  destruct d as [| [k2 l2] d].
  - now rewrite <- Hl.
  - destruct (Hkey k2 l2 (or_intror (or_introl eq_refl))) as [-> _].
    inversion Hnd as [| ? ? Hnot _]; subst. exfalso. apply Hnot. now left.
Qed.

Lemma node_point_polar (center : Point) (size : R) (k : nat) (node_ref : string) :
  nth_error node_order k = Some node_ref ->
  node_point center size node_ref = polar center size (source_angle k).
Proof.
  intros Hk.
  do 6 (destruct k as [| k]; [injection Hk as <-; reflexivity |]).
  destruct k; discriminate.
Qed.

Lemma node_point_lattice (hex_size : R) (coord : Z * Z * Z) (node_ref : string)
    (ab : Z * Z) :
  lattice (coord, node_ref) = Some ab ->
  In node_ref node_order /\
  node_point (tile_center hex_size coord) hex_size node_ref
  = lattice_point hex_size ab.
Proof.
  destruct coord as [[x y] z]. unfold lattice.
  destruct (dict_get String.eqb lattice_offset node_ref) as [[a b] |] eqn:Hoff;
    [| discriminate].
  intros Hab.
  replace ab with ((2 * x + z + a)%Z, (3 * z + b)%Z) by congruence.
  clear Hab.
  apply (dict_get_in String.eqb String.eqb_eq) in Hoff.
  unfold lattice_point. cbn [fst snd]. rewrite !plus_IZR, !mult_IZR.
  repeat (destruct Hoff as [Hoff | Hoff];
          [injection Hoff as <- <- <- | ]); try destruct Hoff.
  - split; [cbn; tauto |].
    rewrite (node_point_polar _ _ 0 _ eq_refl). unfold polar, source_angle.
    cbn [nth fst snd]. rewrite cos_north, sin_north.
    unfold tile_center, cube_to_pixel. cbn [fst snd cube_x cube_z].
    f_equal; field.
  - split; [cbn; tauto |].
    rewrite (node_point_polar _ _ 1 _ eq_refl). unfold polar, source_angle.
    cbn [nth fst snd]. rewrite cos_north_east, sin_north_east.
    unfold tile_center, cube_to_pixel. cbn [fst snd cube_x cube_z].
    f_equal; field.
  - split; [cbn; tauto |].
    rewrite (node_point_polar _ _ 2 _ eq_refl). unfold polar, source_angle.
    cbn [nth fst snd]. rewrite cos_PI6, sin_PI6.
    unfold tile_center, cube_to_pixel. cbn [fst snd cube_x cube_z].
    f_equal; field.
  - split; [cbn; tauto |].
    rewrite (node_point_polar _ _ 3 _ eq_refl). unfold polar, source_angle.
    cbn [nth fst snd]. rewrite cos_PI2, sin_PI2.
    unfold tile_center, cube_to_pixel. cbn [fst snd cube_x cube_z].
    f_equal; field.
  - split; [cbn; tauto |].
    rewrite (node_point_polar _ _ 4 _ eq_refl). unfold polar, source_angle.
    cbn [nth fst snd]. rewrite cos_south_west, sin_south_west.
    unfold tile_center, cube_to_pixel. cbn [fst snd cube_x cube_z].
    f_equal; field.
  - split; [cbn; tauto |].
    rewrite (node_point_polar _ _ 5 _ eq_refl). unfold polar, source_angle.
    cbn [nth fst snd]. rewrite cos_north_west, sin_north_west.
    unfold tile_center, cube_to_pixel. cbn [fst snd cube_x cube_z].
    f_equal; field.
Qed.

Lemma consistent_table_spec (table : Dict NodeKey Z) :
  consistent_table table = true ->
  forall k1 k2 id, In (k1, id) table -> In (k2, id) table ->
    exists ab, lattice k1 = Some ab /\ lattice k2 = Some ab.
Proof.
  unfold consistent_table. rewrite forallb_forall.
  intros Hall k1 k2 id H1 H2.
  specialize (Hall _ H1). rewrite forallb_forall in Hall.
  specialize (Hall _ H2). unfold consistent_entries in Hall.
  cbn [fst snd] in Hall. rewrite Z.eqb_refl in Hall.
  destruct (lattice k1) as [[a1 b1] |]; [| discriminate].
  destruct (lattice k2) as [[a2 b2] |]; [| discriminate].
  apply andb_true_iff in Hall. destruct Hall as [Ha Hb].
  apply Z.eqb_eq in Ha, Hb. subst. now exists (a2, b2).
Qed.

Lemma in_contributions (table : Dict NodeKey Z) (hex_size : R)
    (topology : list ((Z * Z * Z) * string)) (id : Z) (q : Point) :
  In q (contributions table hex_size topology id) <->
  exists coord tile_type node_ref,
    In (coord, tile_type) topology /\ In node_ref node_order /\
    dict_get NodeKey_eqb table (coord, node_ref) = Some id /\
    q = node_point (tile_center hex_size coord) hex_size node_ref.
Proof.
  unfold contributions, tile_contributions. rewrite in_flat_map. split.
  - intros [[coord tile_type] [He Hq]]. cbn [fst] in Hq.
    apply in_flat_map in Hq. destruct Hq as [node_ref [Href Hq]].
    destruct (dict_get NodeKey_eqb table (coord, node_ref)) as [n |] eqn:Hget;
      [| destruct Hq].
    destruct (Z.eqb_spec n id) as [-> | Hne]; [| destruct Hq].
    destruct Hq as [<- | []].
    now exists coord, tile_type, node_ref.
  - intros [coord [tile_type [node_ref [He [Href [Hget ->]]]]]].
    exists (coord, tile_type). split; [exact He |]. cbn [fst].
    apply in_flat_map. exists node_ref. split; [exact Href |].
    rewrite Hget, Z.eqb_refl. now left.
Qed.

Lemma get_node_position_center (center : Point) (size : R) (node_ref : string) :
  In node_ref node_order ->
  get_node_position (fst center) (snd center) size node_ref
  = inr (node_point center size node_ref).
Proof.
  destruct center as [px py]. apply get_node_position_node_point.
Qed.

Lemma no_elements {A : Type} (l : list A) : (forall a, ~ In a l) -> l = [].
Proof.
  destruct l as [| a l]; [reflexivity |].
  intros Hnone. exfalso. apply (Hnone a). now left.
Qed.

Section ConsistentTable.
Variable table : Dict NodeKey Z.
Variable hex_size : R.
Variable topology : list ((Z * Z * Z) * string).
Hypothesis Hconsistent : consistent_table table = true.
Hypothesis Htruthy : node_ids_truthy (Some table) = true.

Lemma collected_contributions (id : Z) :
  lookup_list
    (node_id_to_positions
       (fold_left (visited hex_size (Some table)) topology initial_state)) id
  = contributions table hex_size topology id.
Proof. now rewrite visited_lookup. Qed.

(** With a consistent table every position collected for an identifier is
    the position of each tile corner carrying it, and so is the centroid. *)
Lemma consistent_rendering (coord : Z * Z * Z) (tile_type node_ref : string)
    (id : Z) :
  In (coord, tile_type) topology ->
  dict_get NodeKey_eqb table (coord, node_ref) = Some id ->
  In node_ref node_order /\
  In (node_point (tile_center hex_size coord) hex_size node_ref)
    (contributions table hex_size topology id) /\
  (forall q, In q (contributions table hex_size topology id) ->
             q = node_point (tile_center hex_size coord) hex_size node_ref) /\
  dict_get Z.eqb
    (collapsed (node_id_to_positions
       (fold_left (visited hex_size (Some table)) topology initial_state))) id
  = Some (node_point (tile_center hex_size coord) hex_size node_ref).
Proof.
  intros Htile Hget.
  pose proof (dict_get_in NodeKey_eqb NodeKey_eqb_eq _ _ _ Hget) as Hentry.
  destruct (consistent_table_spec table Hconsistent _ _ _ Hentry Hentry)
    as [ab [Hab _]].
  destruct (node_point_lattice hex_size coord node_ref ab Hab) as [Href Hpoint].
  assert (Hmember : In (node_point (tile_center hex_size coord) hex_size node_ref)
                      (contributions table hex_size topology id)).
  { apply in_contributions. now exists coord, tile_type, node_ref. }
  assert (Hsame : forall q, In q (contributions table hex_size topology id) ->
                    q = node_point (tile_center hex_size coord) hex_size node_ref).
  { intros q Hq. apply in_contributions in Hq.
    destruct Hq as [coord' [tile_type' [node_ref' [_ [_ [Hget' ->]]]]]].
    pose proof (dict_get_in NodeKey_eqb NodeKey_eqb_eq _ _ _ Hget') as Hentry'.
    destruct (consistent_table_spec table Hconsistent _ _ _ Hentry' Hentry)
      as [ab' [Hab' Hab2]].
    rewrite Hab in Hab2. injection Hab2 as <-.
    destruct (node_point_lattice hex_size coord' node_ref' ab Hab') as [_ ->].
    now rewrite Hpoint. }
  repeat split; try assumption.
  unfold collapsed. rewrite dict_get_map_values.
  rewrite positions_wf_lookup.
  - cbn [option_map]. f_equal. rewrite collected_contributions.
    apply mean_point_constant; [| exact Hsame].
    intros Hnil. rewrite Hnil in Hmember. destruct Hmember.
  - now apply visited_wf.
  - rewrite collected_contributions.
    intros Hnil. rewrite Hnil in Hmember. destruct Hmember.
Qed.
End ConsistentTable.

(** In exact arithmetic, all tile corners of the mini map that carry the
    same node identifier are at the same pixel position, so every position
    collected for the identifier, and the centroid drawn for it, equal the
    position of each of those corners. *)
Lemma mini_positions_coincide_exactly (title filename : string) (hex_size : R) :
  (forall c1 t1 d1 c2 t2 d2 id,
     In (c1, t1) MINI_TOPOLOGY -> In (c2, t2) MINI_TOPOLOGY ->
     dict_get NodeKey_eqb MINI_NODE_IDS (c1, d1) = Some id ->
     dict_get NodeKey_eqb MINI_NODE_IDS (c2, d2) = Some id ->
     exists p,
       get_node_position (fst (tile_center hex_size c1))
         (snd (tile_center hex_size c1)) hex_size d1 = inr p /\
       get_node_position (fst (tile_center hex_size c2))
         (snd (tile_center hex_size c2)) hex_size d2 = inr p) /\
  exists st node_positions r,
    for_in MINI_TOPOLOGY (visit_tile hex_size (Some MINI_NODE_IDS)) initial_state
    = inr st /\
    collapse_positions (node_id_to_positions st) = inr node_positions /\
    visualize_map MINI_TOPOLOGY title filename hex_size (Some MINI_NODE_IDS)
    = inr r /\
    forall c t d id,
      In (c, t) MINI_TOPOLOGY ->
      dict_get NodeKey_eqb MINI_NODE_IDS (c, d) = Some id ->
      exists p,
        get_node_position (fst (tile_center hex_size c))
          (snd (tile_center hex_size c)) hex_size d = inr p /\
        In p (lookup_list (node_id_to_positions st) id) /\
        (forall q, In q (lookup_list (node_id_to_positions st) id) -> q = p) /\
        dict_get Z.eqb node_positions id = Some p /\
        In (p, str_of_Z id) (node_labels (drawn r)).
Proof.
  assert (Hconsistent : consistent_table MINI_NODE_IDS = true)
    by (vm_compute; reflexivity).
  assert (Htruthy : node_ids_truthy (Some MINI_NODE_IDS) = true)
    by (vm_compute; reflexivity).
  assert (Hvalid : valid_topology MINI_TOPOLOGY = true)
    by (vm_compute; reflexivity).
  split.
  - intros c1 t1 d1 c2 t2 d2 id H1 H2 Hget1 Hget2.
    destruct (consistent_rendering MINI_NODE_IDS hex_size MINI_TOPOLOGY
                Hconsistent Htruthy c1 t1 d1 id H1 Hget1)
      as [Href1 [_ [Hsame _]]].
    destruct (consistent_rendering MINI_NODE_IDS hex_size MINI_TOPOLOGY
                Hconsistent Htruthy c2 t2 d2 id H2 Hget2)
      as [Href2 [Hmember _]].
    exists (node_point (tile_center hex_size c1) hex_size d1). split.
    + now apply get_node_position_center.
    + rewrite get_node_position_center by exact Href2.
      f_equal. now apply Hsame.
  - destruct (visualize_map_observed MINI_TOPOLOGY title filename hex_size
                (Some MINI_NODE_IDS) Hvalid) as [r [Hrun [_ [_ [Hlabels _]]]]].
    exists (fold_left (visited hex_size (Some MINI_NODE_IDS)) MINI_TOPOLOGY
              initial_state).
    eexists. exists r. split; [apply tile_loop_eq; exact Hvalid |].
    split; [apply collapse_positions_map; apply visited_wf; reflexivity |].
    split; [exact Hrun |].
    intros c t d id Htile Hget.
    destruct (consistent_rendering MINI_NODE_IDS hex_size MINI_TOPOLOGY
                Hconsistent Htruthy c t d id Htile Hget)
      as [Href [Hmember [Hsame Hcentroid]]].
    exists (node_point (tile_center hex_size c) hex_size d).
    rewrite collected_contributions by exact Htruthy.
    split; [apply get_node_position_center; exact Href |].
    split; [exact Hmember |]. split; [exact Hsame |]. split; [exact Hcentroid |].
    rewrite Hlabels. apply (dict_get_in Z.eqb Z.eqb_eq) in Hcentroid.
    exact (in_map (fun item : Z * Point => (snd item, str_of_Z (fst item)))
             _ _ Hcentroid).
Qed.

(** C5, as stated, fails on the doubles the script computes.  At the hex
    size 0.6 of [main], node 0 of the mini map is the North corner of
    [(0, 0, 0)], the SouthEast corner of [(0, 1, -1)] and the SouthWest
    corner of [(1, 0, -1)]; the three positions have pairwise different x
    coordinates (about 3.67e-17, 1.11e-16 and -1.11e-16), and their
    centroid (x about 1.22e-17) equals none of them. *)
Lemma mini_node_0_doubles_differ :
  exists pA pB pC c,
    In ((0, 0, 0)%Z, TileTemplate.LAND) MINI_TOPOLOGY /\
    In ((0, 1, -1)%Z, TileTemplate.LAND) MINI_TOPOLOGY /\
    In ((1, 0, -1)%Z, TileTemplate.LAND) MINI_TOPOLOGY /\
    dict_get NodeKey_eqb MINI_NODE_IDS ((0, 0, 0)%Z, NodeRef.North) = Some 0%Z /\
    dict_get NodeKey_eqb MINI_NODE_IDS ((0, 1, -1)%Z, NodeRef.SouthEast)
    = Some 0%Z /\
    dict_get NodeKey_eqb MINI_NODE_IDS ((1, 0, -1)%Z, NodeRef.SouthWest)
    = Some 0%Z /\
    Float64.corner_of Float64.libm_cos Float64.libm_sin Float64.mini_hex_size
      (0, 0, 0)%Z NodeRef.North = inr pA /\
    Float64.corner_of Float64.libm_cos Float64.libm_sin Float64.mini_hex_size
      (0, 1, -1)%Z NodeRef.SouthEast = inr pB /\
    Float64.corner_of Float64.libm_cos Float64.libm_sin Float64.mini_hex_size
      (1, 0, -1)%Z NodeRef.SouthWest = inr pC /\
    PrimFloat.eqb (fst pA) (fst pB) = false /\
    PrimFloat.eqb (fst pA) (fst pC) = false /\
    PrimFloat.eqb (fst pB) (fst pC) = false /\
    Float64.centroid [pA; pB; pC] = inr c /\
    PrimFloat.eqb (fst c) (fst pA) = false /\
    PrimFloat.eqb (fst c) (fst pB) = false /\
    PrimFloat.eqb (fst c) (fst pC) = false.
Proof.
  do 4 eexists.
  split; [cbn; tauto |]. split; [cbn; tauto |]. split; [cbn; tauto |].
  repeat split; vm_compute; reflexivity.
Qed.

Lemma mini_table_close :
  Float64.table_close Float64.libm_cos Float64.libm_sin Float64.mini_hex_size
    Float64.rounding_bound MINI_NODE_IDS = true.
Proof. vm_compute. reflexivity. Qed.

(** C5 (amended). In exact arithmetic the positions contributed for one
    node identifier of the mini map by the tiles that refer to it are one
    and the same point, and the collapsed centroid is that point.  As the
    doubles the script computes (hex size 0.6, cosines and sines rounded
    to nearest) they agree up to rounding only: any two of them are within
    2^-51 of each other in each coordinate. *)
Theorem mini_shared_nodes_agree_up_to_rounding (title filename : string)
    (hex_size : R) :
  ((forall c1 t1 d1 c2 t2 d2 id,
     In (c1, t1) MINI_TOPOLOGY -> In (c2, t2) MINI_TOPOLOGY ->
     dict_get NodeKey_eqb MINI_NODE_IDS (c1, d1) = Some id ->
     dict_get NodeKey_eqb MINI_NODE_IDS (c2, d2) = Some id ->
     exists p,
       get_node_position (fst (tile_center hex_size c1))
         (snd (tile_center hex_size c1)) hex_size d1 = inr p /\
       get_node_position (fst (tile_center hex_size c2))
         (snd (tile_center hex_size c2)) hex_size d2 = inr p) /\
  exists st node_positions r,
    for_in MINI_TOPOLOGY (visit_tile hex_size (Some MINI_NODE_IDS)) initial_state
    = inr st /\
    collapse_positions (node_id_to_positions st) = inr node_positions /\
    visualize_map MINI_TOPOLOGY title filename hex_size (Some MINI_NODE_IDS)
    = inr r /\
    forall c t d id,
      In (c, t) MINI_TOPOLOGY ->
      dict_get NodeKey_eqb MINI_NODE_IDS (c, d) = Some id ->
      exists p,
        get_node_position (fst (tile_center hex_size c))
          (snd (tile_center hex_size c)) hex_size d = inr p /\
        In p (lookup_list (node_id_to_positions st) id) /\
        (forall q, In q (lookup_list (node_id_to_positions st) id) -> q = p) /\
        dict_get Z.eqb node_positions id = Some p /\
        In (p, str_of_Z id) (node_labels (drawn r))) /\
  (forall c1 d1 c2 d2 id,
     dict_get NodeKey_eqb MINI_NODE_IDS (c1, d1) = Some id ->
     dict_get NodeKey_eqb MINI_NODE_IDS (c2, d2) = Some id ->
     exists p q,
       Float64.corner_of Float64.libm_cos Float64.libm_sin
         Float64.mini_hex_size c1 d1 = inr p /\
       Float64.corner_of Float64.libm_cos Float64.libm_sin
         Float64.mini_hex_size c2 d2 = inr q /\
       Float64.close Float64.rounding_bound p q = true).
Proof.
  split; [apply mini_positions_coincide_exactly |].
  intros c1 d1 c2 d2 id Hget1 Hget2.
  apply (dict_get_in NodeKey_eqb NodeKey_eqb_eq) in Hget1, Hget2.
  pose proof mini_table_close as Hclose.
  unfold Float64.table_close in Hclose. rewrite forallb_forall in Hclose.
  specialize (Hclose _ Hget1). rewrite forallb_forall in Hclose.
  specialize (Hclose _ Hget2). unfold Float64.entries_close in Hclose.
  cbn [fst snd] in Hclose. rewrite Z.eqb_refl in Hclose.
  destruct (Float64.corner_of Float64.libm_cos Float64.libm_sin
              Float64.mini_hex_size c1 d1) as [e1 | p]; [discriminate |].
  destruct (Float64.corner_of Float64.libm_cos Float64.libm_sin
              Float64.mini_hex_size c2 d2) as [e2 | q]; [discriminate |].
  now exists p, q.
Qed.

(* ================================================================= *)
(** ** A table with a single entry *)

(** C8. With a table whose only entry is [((0, 0, 0), North)], rendering
    a topology that contains the tile [(0, 0, 0)] emits exactly one node
    label, at [get_node_position] of that tile's centre, the hex size and
    [North]. *)
Theorem single_entry_table_one_label (topology : list ((Z * Z * Z) * string))
    (title filename : string) (hex_size : R) (node_id : Z)
    (Hvalid : valid_topology topology = true)
    (Htile : exists tile_type, In ((0, 0, 0)%Z, tile_type) topology) :
  exists r p,
    visualize_map topology title filename hex_size
      (Some (dict_of_list NodeKey_eqb [(((0, 0, 0)%Z, NodeRef.North), node_id)]))
    = inr r /\
    get_node_position (fst (cube_to_pixel (MkCubeCoord 0 0 0) hex_size))
      (snd (cube_to_pixel (MkCubeCoord 0 0 0) hex_size)) hex_size NodeRef.North
    = inr p /\
    node_labels (drawn r) = [(p, str_of_Z node_id)] /\
    circles (drawn r) = [p].
Proof.
  destruct Htile as [tile_type Htile].
  change (dict_of_list NodeKey_eqb [(((0, 0, 0)%Z, NodeRef.North), node_id)])
    with [(((0, 0, 0)%Z, NodeRef.North), node_id)].
  set (table := [(((0, 0, 0)%Z, NodeRef.North), node_id)]).
  set (p := node_point (tile_center hex_size (0, 0, 0)%Z) hex_size NodeRef.North).
  assert (Hconsistent : consistent_table table = true).
  { unfold consistent_table, table. cbn [forallb]. unfold consistent_entries.
    cbn [fst snd]. rewrite Z.eqb_refl. reflexivity. }
  assert (Hget : dict_get NodeKey_eqb table ((0, 0, 0)%Z, NodeRef.North)
                 = Some node_id) by reflexivity.
  destruct (consistent_rendering table hex_size topology Hconsistent eq_refl
              (0, 0, 0)%Z tile_type NodeRef.North node_id Htile Hget)
    as [Href [Hmember [Hsame Hcentroid]]].
  fold p in Hmember, Hsame, Hcentroid.
  set (st := fold_left (visited hex_size (Some table)) topology initial_state)
    in Hcentroid.
  assert (Hothers : forall id, id <> node_id ->
            lookup_list (node_id_to_positions st) id = []).
  { intros id Hid. unfold st.
    rewrite collected_contributions by reflexivity.
    apply no_elements. intros q Hq. apply in_contributions in Hq.
    destruct Hq as [coord [t [node_ref [_ [_ [Hget' _]]]]]].
    apply (dict_get_in NodeKey_eqb NodeKey_eqb_eq) in Hget'.
    destruct Hget' as [Heq | []]. injection Heq as _ _. congruence. }
  assert (Hsingle : node_id_to_positions st
                    = [(node_id, lookup_list (node_id_to_positions st) node_id)]).
  { apply positions_single; [now apply visited_wf | exact Hothers |].
    unfold st. rewrite collected_contributions by reflexivity.
    intros Hnil. rewrite Hnil in Hmember. destruct Hmember. }
  assert (Hcollapsed : collapsed (node_id_to_positions st) = [(node_id, p)]).
  { rewrite Hsingle. unfold collapsed. cbn [map fst snd]. do 2 f_equal.
    unfold st. rewrite collected_contributions by reflexivity.
    apply mean_point_constant; [| exact Hsame].
    intros Hnil. rewrite Hnil in Hmember. destruct Hmember. }
  destruct (visualize_map_observed topology title filename hex_size (Some table)
              Hvalid) as [r [Hrun [_ [Hcircles [Hlabels _]]]]].
  fold st in Hcircles, Hlabels. rewrite Hcollapsed in Hcircles, Hlabels.
  exists r, p. split; [exact Hrun |].
  split; [| split; assumption].
  exact (get_node_position_center (tile_center hex_size (0, 0, 0)%Z) hex_size
           NodeRef.North Href).
Qed.

Lemma single_entry_table_one_label_witness :
  exists r p,
    visualize_map
      [((1, -1, 0)%Z, TileTemplate.WATER); ((0, 0, 0)%Z, TileTemplate.LAND);
       ((0, 0, 0)%Z, TileTemplate.PORT)]
      "title" "file.png" 2%R
      (Some (dict_of_list NodeKey_eqb [(((0, 0, 0)%Z, NodeRef.North), 42%Z)]))
    = inr r /\
    get_node_position (fst (cube_to_pixel (MkCubeCoord 0 0 0) 2%R))
      (snd (cube_to_pixel (MkCubeCoord 0 0 0) 2%R)) 2%R NodeRef.North
    = inr p /\
    node_labels (drawn r) = [(p, "42")] /\
    circles (drawn r) = [p].
Proof.
  apply (single_entry_table_one_label
           [((1, -1, 0)%Z, TileTemplate.WATER); ((0, 0, 0)%Z, TileTemplate.LAND);
            ((0, 0, 0)%Z, TileTemplate.PORT)]
           "title" "file.png" 2%R 42%Z).
  - reflexivity.
  - exists TileTemplate.LAND. cbn. tauto.
Defined.

(* ================================================================= *)
(** * Further properties of the geometry *)

Lemma sqrt3_sq : (sqrt 3 * sqrt 3 = 3)%R.
Proof. apply sqrt_sqrt. lra. Qed.

Lemma sqrt3_pos : (0 < sqrt 3)%R.
Proof. apply sqrt_lt_R0. lra. Qed.

(** X2. For a non-zero size, two coordinates that satisfy the zero-sum
    invariant have the same pixel centre only if they are the same
    coordinate: distinct tiles never share a centre. *)
Theorem cube_to_pixel_injective (a b : CubeCoord) (size : R)
    (Ha : (cube_x a + cube_y a + cube_z a = 0)%Z)
    (Hb : (cube_x b + cube_y b + cube_z b = 0)%Z)
    (Hsize : size <> 0%R) :
  cube_to_pixel a size = cube_to_pixel b size <-> a = b.
Proof.
  split; [| intros ->; reflexivity].
  destruct a as [ax ay az], b as [bx by_ bz].
  cbn [cube_x cube_y cube_z] in Ha, Hb.
  unfold cube_to_pixel; cbn [cube_x cube_z]. intros [= Hx Hy].
  apply Rmult_eq_reg_l in Hx; [| exact Hsize].
  apply Rmult_eq_reg_l in Hy; [| exact Hsize].
  assert (Hz : IZR az = IZR bz) by lra.
  apply eq_IZR in Hz. subst bz.
  assert (Hxx : (sqrt 3 * (IZR ax - IZR bx) = 0)%R) by lra.
  apply Rmult_integral in Hxx. pose proof sqrt3_pos as Hpos.
  destruct Hxx as [H3 | Hdiff]; [lra |].
  assert (Hax : IZR ax = IZR bx) by lra.
  apply eq_IZR in Hax. subst bx.
  f_equal. lia.
Qed.

Lemma cube_to_pixel_injective_witness :
  cube_to_pixel (MkCubeCoord 1 (-1) 0) 1 <> cube_to_pixel (MkCubeCoord 0 0 0) 1.
Proof.
  intros Heq.
  apply (cube_to_pixel_injective (MkCubeCoord 1 (-1) 0) (MkCubeCoord 0 0 0) 1)
    in Heq; [discriminate | reflexivity | reflexivity | lra].
Defined.

(** X3. The centres of two tiles one cube step apart are at distance
    [sqrt 3 * |size|], twice the inradius of the hexagons drawn. *)
Theorem neighbour_centres_distance (x y z dx dy dz : Z) (size : R)
    (Hstep : In (dx, dy, dz) cube_directions) :
  dist (tile_center size (x + dx, y + dy, z + dz)%Z) (tile_center size (x, y, z))
  = (sqrt 3 * Rabs size)%R.
Proof.
  assert (Hgoal : (Rsqr (fst (tile_center size (x + dx, y + dy, z + dz)%Z)
                         - fst (tile_center size (x, y, z)))
                   + Rsqr (snd (tile_center size (x + dx, y + dy, z + dz)%Z)
                           - snd (tile_center size (x, y, z)))
                   = Rsqr (sqrt 3 * size))%R).
  { unfold tile_center, cube_to_pixel, Rsqr. cbn [fst snd cube_x cube_z].
    rewrite !plus_IZR. pose proof sqrt3_sq as H3.
    set (r3 := sqrt 3) in *.
    assert (Hs : (size * size * (r3 * r3) = size * size * 3)%R)
      by (rewrite H3; reflexivity).
    unfold cube_directions in Hstep.
    repeat (destruct Hstep as [Hstep | Hstep];
            [injection Hstep as <- <- <-; nra |]).
    destruct Hstep. }
  unfold dist. rewrite Hgoal, sqrt_Rsqr_abs, Rabs_mult.
  rewrite (Rabs_right (sqrt 3)); [reflexivity |].
  pose proof sqrt3_pos. lra.
Qed.

Lemma neighbour_centres_distance_witness :
  dist (tile_center 2 (1 + 0, -1 + 1, 0 + -1)%Z) (tile_center 2 (1, -1, 0)%Z)
  = (sqrt 3 * Rabs 2)%R.
Proof.
  apply (neighbour_centres_distance 1 (-1) 0 0 1 (-1) 2).
  cbn. tauto.
Defined.

Lemma corner_of_node_point (hex_size : R) (coord : Z * Z * Z) (node_ref : string) :
  In node_ref node_order ->
  corner_of hex_size coord node_ref
  = inr (node_point (tile_center hex_size coord) hex_size node_ref).
Proof. intros Href. unfold corner_of. now apply get_node_position_center. Qed.

Lemma corner_of_lattice (hex_size : R) (coord : Z * Z * Z) (node_ref : string)
    (ab : Z * Z) :
  lattice (coord, node_ref) = Some ab ->
  corner_of hex_size coord node_ref = inr (lattice_point hex_size ab).
Proof.
  intros Hab.
  destruct (node_point_lattice hex_size coord node_ref ab Hab) as [Href <-].
  now apply corner_of_node_point.
Qed.




Lemma corner_points_explicit (c : Point) (s : R) :
  corner_points c s
  = [ (fst c + s * 0, snd c + s * -1);
      (fst c + s * (sqrt 3 / 2), snd c + s * - (1 / 2));
      (fst c + s * (sqrt 3 / 2), snd c + s * (1 / 2));
      (fst c + s * 0, snd c + s * 1);
      (fst c + s * - (sqrt 3 / 2), snd c + s * (1 / 2));
      (fst c + s * - (sqrt 3 / 2), snd c + s * - (1 / 2)) ]%R.
Proof.
  unfold corner_points, polar, source_angle. cbn [map seq nth].
  rewrite cos_north, sin_north, cos_north_east, sin_north_east, cos_PI6,
    sin_PI6, cos_PI2, sin_PI2, cos_south_west, sin_south_west, cos_north_west,
    sin_north_west.
  reflexivity.
Qed.

Lemma dist_of_sqr (p q : Point) (r : R) :
  (Rsqr (fst p - fst q) + Rsqr (snd p - snd q) = Rsqr r)%R ->
  dist p q = Rabs r.
Proof. intros H. unfold dist. rewrite H. apply sqrt_Rsqr_abs. Qed.

(** X6. The hexagon drawn is regular: each of its six sides, from one
    corner to the next in the list and from the last back to the first,
    has length [|size|]. *)
Theorem hexagon_sides_equal (center_x center_y size : R) :
  exists corners,
    hexagon_corners center_x center_y size = inr corners /\
    forall k, (k < 6)%nat ->
      dist (nth k corners (center_x, center_y))
           (nth ((k + 1) mod 6) corners (center_x, center_y))
      = Rabs size.
Proof.
  eexists. split; [apply hexagon_corners_eq |].
  rewrite corner_points_explicit. cbn [fst snd].
  intros k Hk. pose proof sqrt3_sq as H3.
  assert (Hs : (size * size * (sqrt 3 * sqrt 3) = size * size * 3)%R)
    by (rewrite H3; reflexivity).
  set (r3 := sqrt 3) in *.
  assert (Hcases : (k = 0 \/ k = 1 \/ k = 2 \/ k = 3 \/ k = 4 \/ k = 5)%nat) by lia.
  destruct Hcases as [-> | [-> | [-> | [-> | [-> | ->]]]]];
    cbn [Nat.modulo Nat.divmod Nat.add fst snd nth Nat.sub];
    apply dist_of_sqr; cbn [fst snd]; unfold Rsqr; nra.
Qed.


(* ================================================================= *)
(** * Further properties of the renderer *)

Lemma tile_loop_invalid (hex_size : R) (node_ids : option (Dict NodeKey Z))
    (topology : list ((Z * Z * Z) * string)) (st : TileLoop) :
  valid_topology topology = false ->
  for_in topology (visit_tile hex_size node_ids) st
  = inl (AssertionError "Cube coordinates must sum to zero").
Proof.
  revert st. induction topology as [| e topology IH]; intros st Hinvalid;
    [discriminate |].
  destruct e as [[[x y] z] t]. cbn [for_in].
  destruct (Z.eq_dec (x + y + z) 0) as [Hsum | Hsum].
  - rewrite visit_tile_eq by exact Hsum. unfold bind. apply IH.
    unfold valid_topology in Hinvalid |- *. cbn [forallb] in Hinvalid.
    rewrite (proj2 (Z.eqb_eq _ _) Hsum) in Hinvalid. exact Hinvalid.
  - rewrite visit_tile_invalid by exact Hsum. reflexivity.
Qed.

(** X8. [visualize_map] raises the assertion error of [CubeCoord]
    exactly when some coordinate of the topology does not sum to zero,
    wherever that entry is in the list and whatever the table, the title
    and the file name are. *)
Theorem visualize_map_assertion_iff_invalid
    (topology : list ((Z * Z * Z) * string)) (title filename : string)
    (hex_size : R) (node_ids : option (Dict NodeKey Z)) :
  visualize_map topology title filename hex_size node_ids
  = inl (AssertionError "Cube coordinates must sum to zero")
  <-> exists x y z tile_type,
        In ((x, y, z), tile_type) topology /\ (x + y + z <> 0)%Z.
Proof.
  assert (Hinvalid : valid_topology topology = false <->
            exists x y z tile_type,
              In ((x, y, z), tile_type) topology /\ (x + y + z <> 0)%Z).
  { unfold valid_topology. split.
    - intros Hfalse.
      induction topology as [| [[[x y] z] t] topology IH]; [discriminate |].
      cbn [forallb] in Hfalse.
      destruct (Z.eqb_spec (x + y + z) 0) as [Hsum | Hsum].
      + destruct (IH Hfalse) as [x' [y' [z' [t' [Hin Hne]]]]].
        exists x', y', z', t'. split; [now right | exact Hne].
      + exists x, y, z, t. split; [now left | exact Hsum].
    - intros [x [y [z [t [Hin Hne]]]]].
      destruct (forallb _ topology) eqn:Hall; [| reflexivity].
      rewrite forallb_forall in Hall. specialize (Hall _ Hin).
      cbn in Hall. apply Z.eqb_eq in Hall. contradiction. }
  rewrite <- Hinvalid.
  destruct (valid_topology topology) eqn:Hvalid.
  - destruct (visualize_map_observed topology title filename hex_size node_ids
                Hvalid) as [r [Hrun _]].
    rewrite Hrun. split; discriminate.
  - split; [reflexivity |]. intros _.
    unfold visualize_map. now rewrite tile_loop_invalid.
Qed.

Lemma drawn_structure (topology : list ((Z * Z * Z) * string))
    (title filename : string) (hex_size : R)
    (node_ids : option (Dict NodeKey Z)) :
  valid_topology topology = true ->
  exists r,
    visualize_map topology title filename hex_size node_ids = inr r /\
    drawn r
    = [Subplots 20 20; SetAspect "equal"; AxisOff]
      ++ map (tile_polygon hex_size) topology
      ++ label_calls hex_size
           (collapsed (node_id_to_positions
              (fold_left (visited hex_size node_ids) topology initial_state)))
      ++ closing_calls topology title filename hex_size
           (map (tile_pixel hex_size) topology)
           (List.length
              (collapsed (node_id_to_positions
                 (fold_left (visited hex_size node_ids) topology initial_state)))).
Proof.
  intros Hvalid. eexists. split; [apply visualize_map_eq; exact Hvalid |].
  cbn [drawn]. rewrite visited_ax_calls, visited_coords_pixels.
  cbn [initial_state ax_calls coords_pixels app]. reflexivity.
Qed.

Lemma polygons_tile_polygons (hex_size : R)
    (topology : list ((Z * Z * Z) * string)) :
  polygons (map (tile_polygon hex_size) topology)
  = map (fun e => (corner_points (tile_center hex_size (fst e)) hex_size,
                   colors_get (snd e))) topology.
Proof.
  induction topology as [| e topology IH]; [reflexivity |].
  cbn [map]. rewrite <- IH. reflexivity.
Qed.

Lemma label_calls_plain (hex_size : R) (node_positions : Dict Z Point) :
  polygons (label_calls hex_size node_positions) = [] /\
  xlims (label_calls hex_size node_positions) = [] /\
  ylims (label_calls hex_size node_positions) = [] /\
  saved_files (label_calls hex_size node_positions) = [].
Proof.
  induction node_positions as [| item rest IH]; [now repeat split |].
  exact IH.
Qed.

Lemma tile_polygons_plain (hex_size : R)
    (topology : list ((Z * Z * Z) * string)) :
  xlims (map (tile_polygon hex_size) topology) = [] /\
  ylims (map (tile_polygon hex_size) topology) = [] /\
  saved_files (map (tile_polygon hex_size) topology) = [].
Proof.
  induction topology as [| e topology IH]; [now repeat split |].
  exact IH.
Qed.

(** X9. Whatever the table, one polygon is drawn per entry of the
    topology, in the order of the list (an entry listed twice is drawn
    twice), with the six corners around the tile's centre and the colour
    of its kind; a kind other than Land, Water and Port is drawn gray. *)
Theorem one_polygon_per_tile (topology : list ((Z * Z * Z) * string))
    (title filename : string) (hex_size : R)
    (node_ids : option (Dict NodeKey Z))
    (Hvalid : valid_topology topology = true) :
  exists r,
    visualize_map topology title filename hex_size node_ids = inr r /\
    polygons (drawn r)
    = map (fun e => (corner_points (tile_center hex_size (fst e)) hex_size,
                     colors_get (snd e))) topology /\
    colors_get "Land" = "#8B4513" /\
    colors_get "Water" = "#4169E1" /\
    colors_get "Port" = "#FFD700" /\
    forall kind, kind <> "Land" -> kind <> "Water" -> kind <> "Port" ->
                 colors_get kind = "gray".
Proof.
  destruct (drawn_structure topology title filename hex_size node_ids Hvalid)
    as [r [Hrun Hdrawn]].
  exists r. split; [exact Hrun |]. split.
  - rewrite Hdrawn. unfold polygons. rewrite !flat_map_app.
    fold (polygons (map (tile_polygon hex_size) topology)).
    rewrite polygons_tile_polygons.
    match goal with
    | |- context [label_calls ?s ?np] =>
        destruct (label_calls_plain s np) as [Hlabels _]
    end.
    unfold polygons in Hlabels. rewrite Hlabels.
    match goal with
    | |- context [closing_calls ?t ?ti ?f ?s ?c ?n] =>
        assert (Hclosing : polygons (closing_calls t ti f s c n) = [])
          by (destruct c; reflexivity)
    end.
    unfold polygons in Hclosing. rewrite Hclosing.
    cbn [flat_map app]. now rewrite app_nil_r.
  - repeat split; try reflexivity.
    intros kind HL HW HP. unfold colors_get.
    change colors with [("Land", "#8B4513"); ("Water", "#4169E1");
                        ("Port", "#FFD700")].
    cbn [dict_get].
    rewrite !(proj2 (String.eqb_neq _ _)) by assumption. reflexivity.
Qed.

Lemma one_polygon_per_tile_witness :
  exists r,
    visualize_map [((0, 0, 0)%Z, "Desert"); ((0, 0, 0)%Z, "Desert")] "t" "f" 1
      None = inr r /\
    map snd (polygons (drawn r)) = ["gray"; "gray"].
Proof.
  destruct (one_polygon_per_tile
              [((0, 0, 0)%Z, "Desert"); ((0, 0, 0)%Z, "Desert")] "t" "f" 1 None
              eq_refl) as [r [Hrun [Hpolygons _]]].
  exists r. split; [exact Hrun |]. rewrite Hpolygons. reflexivity.
Defined.

(** X10. The tile loop keeps [node_id_to_positions] well formed: its keys
    are distinct and every list it holds has at least one position.  So
    the collapsing loop that follows never divides by zero, although
    [centroid] on an empty list would raise [ZeroDivisionError]. *)
Theorem collected_lists_never_empty (topology : list ((Z * Z * Z) * string))
    (hex_size : R) (node_ids : option (Dict NodeKey Z)) (st : TileLoop)
    (Hrun : for_in topology (visit_tile hex_size node_ids) initial_state
            = inr st) :
  NoDup (dict_keys (node_id_to_positions st)) /\
  (forall id positions,
     dict_get Z.eqb (node_id_to_positions st) id = Some positions ->
     positions <> []) /\
  (exists node_positions,
     collapse_positions (node_id_to_positions st) = inr node_positions /\
     dict_keys node_positions = dict_keys (node_id_to_positions st)) /\
  centroid [] = inl ZeroDivisionError.
Proof.
  pose proof (tile_loop_valid _ _ _ _ _ Hrun) as Hvalid.
  rewrite tile_loop_eq in Hrun by exact Hvalid. injection Hrun as <-.
  assert (Hwf : positions_wf
                  (node_id_to_positions
                     (fold_left (visited hex_size node_ids) topology
                        initial_state)) = true)
    by (apply visited_wf; reflexivity).
  pose proof (proj1 (positions_wf_iff _) Hwf) as [Hnd Hne].
  split; [exact Hnd |]. split; [| split; [| reflexivity]].
  - intros id positions Hget.
    rewrite Forall_forall in Hne.
    exact (Hne _ (dict_get_in Z.eqb Z.eqb_eq _ _ _ Hget)).
  - eexists. split; [apply collapse_positions_map; exact Hwf |].
    unfold dict_keys, collapsed. rewrite map_map. reflexivity.
Qed.

Lemma collected_lists_never_empty_witness :
  exists st,
    for_in [((0, 0, 0)%Z, TileTemplate.LAND)]
      (visit_tile 1 (Some [(((0, 0, 0)%Z, NodeRef.North), 7%Z)])) initial_state
    = inr st /\
    NoDup (dict_keys (node_id_to_positions st)).
Proof.
  exists (visited 1 (Some [(((0, 0, 0)%Z, NodeRef.North), 7%Z)]) initial_state
            ((0, 0, 0)%Z, TileTemplate.LAND)).
  split; [reflexivity |].
  exact (proj1 (collected_lists_never_empty
                  [((0, 0, 0)%Z, TileTemplate.LAND)] 1
                  (Some [(((0, 0, 0)%Z, NodeRef.North), 7%Z)]) _ eq_refl)).
Defined.

(** X11. An empty topology is rendered without error: nothing is drawn,
    the axis limits are left alone, and the figure is still titled,
    given its legend and statistics, and saved. *)
Theorem empty_topology_renders (title filename : string) (hex_size : R)
    (node_ids : option (Dict NodeKey Z)) :
  visualize_map [] title filename hex_size node_ids
  = inr (MkRendering
           [ Subplots 20 20; SetAspect "equal"; AxisOff;
             SetTitle title 20;
             AddLegend [("#8B4513", "Land"); ("#4169E1", "Water");
                        ("#FFD700", "Port")];
             AxText 0.02 0.98 (stats_text [] 0) 10 None true;
             TightLayout; Savefig filename 300;
             PrintLine ("Saved " ++ filename); Close ]
           []) /\
  stats_text [] 0
  = ("Total Tiles: 0" ++ newline ++ "Land: 0 | Water: 0 | Ports: 0" ++ newline
     ++ "Nodes: 0")%string.
Proof. split; reflexivity. Qed.

Lemma drawn_saved (topology : list ((Z * Z * Z) * string))
    (title filename : string) (hex_size : R)
    (node_ids : option (Dict NodeKey Z))
    (Hvalid : valid_topology topology = true) :
  exists r body,
    visualize_map topology title filename hex_size node_ids = inr r /\
    drawn r
    = body ++ [ TightLayout; Savefig filename 300;
                PrintLine ("Saved " ++ filename); Close ] /\
    saved_files body = [].
Proof.
  destruct (drawn_structure topology title filename hex_size node_ids Hvalid)
    as [r [Hrun Hdrawn]].
  set (np := collapsed
               (node_id_to_positions
                  (fold_left (visited hex_size node_ids) topology initial_state)))
    in Hdrawn.
  set (framing := set_limits hex_size (map (tile_pixel hex_size) topology) []
                  ++ [ SetTitle title 20;
                       AddLegend [("#8B4513", "Land"); ("#4169E1", "Water");
                                  ("#FFD700", "Port")];
                       AxText 0.02 0.98 (stats_text topology (List.length np))
                         10 None true ]).
  exists r.
  exists ([Subplots 20 20; SetAspect "equal"; AxisOff]
          ++ map (tile_polygon hex_size) topology
          ++ label_calls hex_size np ++ framing).
  split; [exact Hrun |].
  assert (Hbody : saved_files
                    ([Subplots 20 20; SetAspect "equal"; AxisOff]
                     ++ map (tile_polygon hex_size) topology
                     ++ label_calls hex_size np ++ framing) = []).
  { unfold saved_files. rewrite !flat_map_app.
    destruct (tile_polygons_plain hex_size topology) as [_ [_ Htiles]].
    destruct (label_calls_plain hex_size np) as [_ [_ [_ Hlabels]]].
    unfold saved_files in Htiles, Hlabels. rewrite Htiles, Hlabels.
    unfold framing. rewrite flat_map_app.
    destruct (map (tile_pixel hex_size) topology); reflexivity. }
  assert (Hshape : drawn r
                   = ([Subplots 20 20; SetAspect "equal"; AxisOff]
                      ++ map (tile_polygon hex_size) topology
                      ++ label_calls hex_size np ++ framing)
                     ++ [ TightLayout; Savefig filename 300;
                          PrintLine ("Saved " ++ filename); Close ]).
  { rewrite Hdrawn. unfold closing_calls, framing.
    now rewrite <- !app_assoc. }
  split; [exact Hshape | exact Hbody].
Qed.

(** X12. A rendering that returns has saved the figure exactly once, to
    the file name it was given, after every drawing call and just before
    the message and the closing of the figure. *)
Theorem figure_saved_once_at_end (topology : list ((Z * Z * Z) * string))
    (title filename : string) (hex_size : R)
    (node_ids : option (Dict NodeKey Z))
    (Hvalid : valid_topology topology = true) :
  exists r body,
    visualize_map topology title filename hex_size node_ids = inr r /\
    drawn r
    = body ++ [ TightLayout; Savefig filename 300;
                PrintLine ("Saved " ++ filename); Close ] /\
    saved_files body = [] /\
    saved_files (drawn r) = [filename].
Proof.
  destruct (drawn_saved topology title filename hex_size node_ids Hvalid)
    as [r [body [Hrun [Hshape Hbody]]]].
  exists r, body. split; [exact Hrun |]. split; [exact Hshape |].
  split; [exact Hbody |].
  rewrite Hshape. unfold saved_files in *. rewrite flat_map_app, Hbody.
  reflexivity.
Qed.

Lemma figure_saved_once_at_end_witness :
  exists r,
    visualize_map [((0, 0, 0)%Z, TileTemplate.LAND)] "t" "out.png" 1 None = inr r /\
    saved_files (drawn r) = ["out.png"].
Proof.
  destruct (figure_saved_once_at_end [((0, 0, 0)%Z, TileTemplate.LAND)] "t"
              "out.png" 1 None eq_refl) as [r [body [Hrun [_ [_ Hsaved]]]]].
  exists r. split; assumption.
Defined.

(* ================================================================= *)
(** ** Which labels are drawn *)

Lemma existsb_keys_contains {V : Type} (d : Dict Z V) (k : Z) :
  existsb (Z.eqb k) (dict_keys d) = dict_contains Z.eqb d k.
Proof.
  unfold dict_contains, dict_keys.
  induction d as [| [k' v'] d IH]; cbn; [reflexivity |].
  destruct (Z.eqb k k'); [reflexivity | exact IH].
Qed.

Lemma keys_append (d : Dict Z (list Point)) (k : Z) (p : Point) :
  dict_keys (defaultdict_append d k p) = add_id (dict_keys d) k.
Proof.
  unfold defaultdict_append, add_id.
  rewrite existsb_keys_contains.
  destruct (dict_get Z.eqb d k) eqn:Hget; rewrite dict_keys_set;
    unfold dict_contains; rewrite Hget; reflexivity.
Qed.

Lemma keys_collect_steps (table : Dict NodeKey Z) (coord : Z * Z * Z)
    (center : Point) (hex_size : R) (refs : list string)
    (d : Dict Z (list Point)) :
  dict_keys (fold_left (collect_step table coord center hex_size) refs d)
  = fold_left
      (fun ids node_ref =>
         match dict_get NodeKey_eqb table (coord, node_ref) with
         | Some id => add_id ids id
         | None => ids
         end)
      refs (dict_keys d).
Proof.
  revert d. induction refs as [| node_ref refs IH]; intros d; [reflexivity |].
  cbn [fold_left]. rewrite IH. f_equal. unfold collect_step.
  destruct (dict_get NodeKey_eqb table (coord, node_ref));
    [apply keys_append | reflexivity].
Qed.

Lemma keys_visited (table : Dict NodeKey Z) (hex_size : R)
    (topology : list ((Z * Z * Z) * string)) (st : TileLoop) :
  node_ids_truthy (Some table) = true ->
  dict_keys (node_id_to_positions
               (fold_left (visited hex_size (Some table)) topology st))
  = fold_left (fun ids e => tile_ids table (fst e) ids) topology
      (dict_keys (node_id_to_positions st)).
Proof.
  intros Htruthy. revert st.
  induction topology as [| e topology IH]; intros st; [reflexivity |].
  cbn [fold_left]. rewrite IH. f_equal.
  unfold visited; cbn [node_id_to_positions]. rewrite Htruthy.
  apply keys_collect_steps.
Qed.

Lemma wf_key_iff (d : Dict Z (list Point)) (id : Z) :
  positions_wf d = true ->
  (In id (dict_keys d) <-> lookup_list d id <> []).
Proof.
  intros Hwf. apply positions_wf_iff in Hwf. destruct Hwf as [Hnd Hne].
  unfold lookup_list. split.
  - intros Hin. unfold dict_keys in Hin. apply in_map_iff in Hin.
    destruct Hin as [[k l] [Hk Hin]]. cbn [fst] in Hk. subst k.
    rewrite (dict_get_nodup_in Z.eqb Z.eqb_eq d id l Hnd Hin).
    rewrite Forall_forall in Hne. exact (Hne _ Hin).
  - destruct (dict_get Z.eqb d id) as [l |] eqn:Hget; [| congruence].
    intros _. exact (dict_get_in_keys Z.eqb Z.eqb_eq d id l Hget).
Qed.

Lemma wf_entry (d : Dict Z (list Point)) (id : Z) (l : list Point) :
  positions_wf d = true -> In (id, l) d -> l = lookup_list d id.
Proof.
  intros Hwf Hin. apply positions_wf_iff in Hwf. destruct Hwf as [Hnd _].
  unfold lookup_list.
  now rewrite (dict_get_nodup_in Z.eqb Z.eqb_eq d id l Hnd Hin).
Qed.

Lemma truthy_of_nonempty (table : Dict NodeKey Z) :
  table <> [] -> node_ids_truthy (Some table) = true.
Proof. destruct table; [congruence | reflexivity]. Qed.

Lemma contributions_nonempty (table : Dict NodeKey Z) (hex_size : R)
    (topology : list ((Z * Z * Z) * string)) (id : Z) :
  contributions table hex_size topology id <> [] <->
  exists coord tile_type node_ref,
    In (coord, tile_type) topology /\ In node_ref node_order /\
    dict_get NodeKey_eqb table (coord, node_ref) = Some id.
Proof.
  split.
  - destruct (contributions table hex_size topology id) as [| q l] eqn:Hc;
      [congruence |].
    intros _.
    assert (Hq : In q (contributions table hex_size topology id))
      by (rewrite Hc; now left).
    apply in_contributions in Hq.
    destruct Hq as [coord [t [node_ref [H1 [H2 [H3 _]]]]]].
    now exists coord, t, node_ref.
  - intros [coord [t [node_ref [H1 [H2 H3]]]]] Hnil.
    assert (Hq : In (node_point (tile_center hex_size coord) hex_size node_ref)
                   (contributions table hex_size topology id)).
    { apply in_contributions. now exists coord, t, node_ref. }
    rewrite Hnil in Hq. destruct Hq.
Qed.

Lemma rendered_labels (topology : list ((Z * Z * Z) * string))
    (title filename : string) (hex_size : R) (table : Dict NodeKey Z) :
  valid_topology topology = true ->
  table <> [] ->
  exists r,
    visualize_map topology title filename hex_size (Some table) = inr r /\
    node_labels (drawn r)
    = map (fun id => (mean_point (contributions table hex_size topology id),
                      str_of_Z id))
        (label_ids table topology) /\
    NoDup (label_ids table topology) /\
    forall id,
      In id (label_ids table topology) <->
      exists coord tile_type node_ref,
        In (coord, tile_type) topology /\ In node_ref node_order /\
        dict_get NodeKey_eqb table (coord, node_ref) = Some id.
Proof.
  intros Hvalid Hne. pose proof (truthy_of_nonempty table Hne) as Htruthy.
  destruct (visualize_map_observed topology title filename hex_size (Some table)
              Hvalid) as [r [Hrun [_ [_ [Hlabels _]]]]].
  set (d := node_id_to_positions
              (fold_left (visited hex_size (Some table)) topology initial_state))
    in *.
  assert (Hwf : positions_wf d = true) by (apply visited_wf; reflexivity).
  assert (Hkeys : dict_keys d = label_ids table topology)
    by (unfold d; now rewrite keys_visited).
  exists r. split; [exact Hrun |]. split; [| split].
  - rewrite Hlabels, <- Hkeys. unfold collapsed, dict_keys. rewrite !map_map.
    apply map_ext_in. intros [id l] Hin. cbn [fst snd]. f_equal. f_equal.
    rewrite (wf_entry d id l Hwf Hin). unfold d.
    now apply collected_contributions.
  - rewrite <- Hkeys. now apply positions_wf_iff in Hwf.
  - intros id. rewrite <- Hkeys, (wf_key_iff d id Hwf). unfold d.
    rewrite collected_contributions by exact Htruthy.
    apply contributions_nonempty.
Qed.

Lemma label_texts_label_calls (hex_size : R) (node_positions : Dict Z Point) :
  label_texts (label_calls hex_size node_positions)
  = map (fun item => (snd item, str_of_Z (fst item))) node_positions.
Proof.
  induction node_positions as [| [node_id [node_x node_y]] rest IH];
    [reflexivity |].
  cbn [map fst snd]. rewrite <- IH. reflexivity.
Qed.

Lemma label_texts_tile_polygons (hex_size : R)
    (topology : list ((Z * Z * Z) * string)) :
  label_texts (map (tile_polygon hex_size) topology) = [].
Proof. induction topology as [| e topology IH]; [reflexivity | exact IH]. Qed.

(** X13. With a non-empty table, exactly one label is drawn for each
    identifier that some tile of the topology refers to, in the order in
    which the tile loop first meets the identifiers; its position is the
    mean of all the corner positions contributed for that identifier, and
    the text of the identifier is drawn at the centre of its marker
    circle. *)
Theorem one_label_per_referenced_id (topology : list ((Z * Z * Z) * string))
    (title filename : string) (hex_size : R) (table : Dict NodeKey Z)
    (Hvalid : valid_topology topology = true) (Hne : table <> []) :
  exists r,
    visualize_map topology title filename hex_size (Some table) = inr r /\
    node_labels (drawn r)
    = map (fun id => (mean_point (contributions table hex_size topology id),
                      str_of_Z id))
        (label_ids table topology) /\
    circles (drawn r) = map fst (node_labels (drawn r)) /\
    label_texts (drawn r) = node_labels (drawn r) /\
    NoDup (label_ids table topology) /\
    forall id,
      In id (label_ids table topology) <->
      exists coord tile_type node_ref,
        In (coord, tile_type) topology /\ In node_ref node_order /\
        dict_get NodeKey_eqb table (coord, node_ref) = Some id.
Proof.
  destruct (rendered_labels topology title filename hex_size table Hvalid Hne)
    as [r [Hrun [Hlabels [Hnodup Hids]]]].
  destruct (visualize_map_observed topology title filename hex_size (Some table)
              Hvalid) as [r' [Hrun' [_ [Hcircles [Hpairs _]]]]].
  rewrite Hrun in Hrun'. injection Hrun' as <-.
  destruct (drawn_structure topology title filename hex_size (Some table) Hvalid)
    as [r' [Hrun' Hdrawn]].
  rewrite Hrun in Hrun'. injection Hrun' as <-.
  exists r. split; [exact Hrun |]. split; [exact Hlabels |].
  split; [| split; [| split; [exact Hnodup | exact Hids]]].
  - rewrite Hcircles, Hpairs, map_map. reflexivity.
  - rewrite Hpairs, Hdrawn. unfold label_texts. rewrite !flat_map_app.
    fold (label_texts (map (tile_polygon hex_size) topology)).
    rewrite label_texts_tile_polygons.
    match goal with
    | |- context [flat_map ?f (label_calls ?s ?np)] =>
        change (flat_map f (label_calls s np)) with (label_texts (label_calls s np))
    end.
    rewrite label_texts_label_calls.
    match goal with
    | |- context [closing_calls ?t ?ti ?f ?s ?c ?n] =>
        assert (Hclosing : label_texts (closing_calls t ti f s c n) = [])
          by (destruct c; reflexivity)
    end.
    unfold label_texts in Hclosing. rewrite Hclosing.
    cbn [flat_map app]. now rewrite app_nil_r.
Qed.

Lemma one_label_per_referenced_id_witness :
  exists r,
    visualize_map [((0, 0, 0)%Z, TileTemplate.LAND); ((0, 1, -1)%Z, TileTemplate.LAND)]
      "t" "f" 1
      (Some [ (((0, 0, 0)%Z, NodeRef.North), 0%Z);
              (((0, 1, -1)%Z, NodeRef.SouthEast), 0%Z);
              (((5, -5, 0)%Z, NodeRef.South), 9%Z) ]) = inr r /\
    map snd (node_labels (drawn r)) = ["0"].
Proof.
  destruct (one_label_per_referenced_id
              [((0, 0, 0)%Z, TileTemplate.LAND); ((0, 1, -1)%Z, TileTemplate.LAND)]
              "t" "f" 1
              [ (((0, 0, 0)%Z, NodeRef.North), 0%Z);
                (((0, 1, -1)%Z, NodeRef.SouthEast), 0%Z);
                (((5, -5, 0)%Z, NodeRef.South), 9%Z) ]
              eq_refl ltac:(discriminate)) as [r [Hrun [Hlabels _]]].
  exists r. split; [exact Hrun |]. rewrite Hlabels, map_map. reflexivity.
Defined.

(* ================================================================= *)
(** ** Axis limits and statistics *)

Lemma fold_left_Rmin_le_acc (l : list R) (a : R) : (fold_left Rmin l a <= a)%R.
Proof.
  revert a. induction l as [| b l IH]; intros a; cbn; [lra |].
  eapply Rle_trans; [apply IH | apply Rmin_l].
Qed.

Lemma py_min_le (first : R) (rest : list R) (x : R) :
  In x (first :: rest) -> (py_min first rest <= x)%R.
Proof.
  unfold py_min. revert first. induction rest as [| b rest IH]; intros first Hin.
  - destruct Hin as [<- | []]. cbn. lra.
  - cbn [fold_left]. destruct Hin as [<- | [<- | Hin]].
    + eapply Rle_trans; [apply fold_left_Rmin_le_acc | apply Rmin_l].
    + eapply Rle_trans; [apply fold_left_Rmin_le_acc | apply Rmin_r].
    + apply IH. now right.
Qed.

Lemma fold_left_Rmax_ge_acc (l : list R) (a : R) : (a <= fold_left Rmax l a)%R.
Proof.
  revert a. induction l as [| b l IH]; intros a; cbn; [lra |].
  eapply Rle_trans; [apply Rmax_l | apply IH].
Qed.

Lemma py_max_ge (first : R) (rest : list R) (x : R) :
  In x (first :: rest) -> (x <= py_max first rest)%R.
Proof.
  unfold py_max. revert first. induction rest as [| b rest IH]; intros first Hin.
  - destruct Hin as [<- | []]. cbn. lra.
  - cbn [fold_left]. destruct Hin as [<- | [<- | Hin]].
    + eapply Rle_trans; [apply Rmax_l | apply fold_left_Rmax_ge_acc].
    + eapply Rle_trans; [apply Rmax_r | apply fold_left_Rmax_ge_acc].
    + apply IH. now right.
Qed.

Lemma corner_points_near (c p : Point) (s : R) :
  (0 <= s)%R -> In p (corner_points c s) ->
  (fst c - s <= fst p <= fst c + s)%R /\ (snd c - s <= snd p <= snd c + s)%R.
Proof.
  intros Hs Hin. unfold corner_points in Hin. apply in_map_iff in Hin.
  destruct Hin as [k [<- _]]. unfold polar. cbn [fst snd].
  pose proof (COS_bound (source_angle k)) as [Hc1 Hc2].
  pose proof (SIN_bound (source_angle k)) as [Hs1 Hs2].
  split; split; nra.
Qed.

Lemma limits_cover_centres (topology : list ((Z * Z * Z) * string))
    (title filename : string) (hex_size : R)
    (node_ids : option (Dict NodeKey Z))
    (Hvalid : valid_topology topology = true)
    (Hne : topology <> []) :
  exists r xlo xhi ylo yhi,
    visualize_map topology title filename hex_size node_ids = inr r /\
    xlims (drawn r) = [(xlo, xhi)] /\
    ylims (drawn r) = [(ylo, yhi)] /\
    forall e, In e topology ->
      (xlo + hex_size * 2 <= fst (tile_center hex_size (fst e))
       <= xhi - hex_size * 2)%R /\
      (ylo + hex_size * 2 <= snd (tile_center hex_size (fst e))
       <= yhi - hex_size * 2)%R.
Proof.
  destruct (drawn_structure topology title filename hex_size node_ids Hvalid)
    as [r [Hrun Hdrawn]].
  destruct topology as [| e0 rest]; [congruence |].
  set (np := collapsed
               (node_id_to_positions
                  (fold_left (visited hex_size node_ids) (e0 :: rest)
                     initial_state))) in Hdrawn.
  set (xs := map (fun c : R * R * string => fst (fst c))
               (map (tile_pixel hex_size) rest)).
  set (ys := map (fun c : R * R * string => snd (fst c))
               (map (tile_pixel hex_size) rest)).
  set (x0 := fst (tile_center hex_size (fst e0))).
  set (y0 := snd (tile_center hex_size (fst e0))).
  exists r, (py_min x0 xs - hex_size * 2)%R, (py_max x0 xs + hex_size * 2)%R,
    (py_min y0 ys - hex_size * 2)%R, (py_max y0 ys + hex_size * 2)%R.
  split; [exact Hrun |].
  destruct (tile_polygons_plain hex_size (e0 :: rest)) as [Htx [Hty _]].
  destruct (label_calls_plain hex_size np) as [_ [Hlx [Hly _]]].
  split; [| split].
  - rewrite Hdrawn. unfold xlims in *. rewrite !flat_map_app, Htx, Hlx.
    reflexivity.
  - rewrite Hdrawn. unfold ylims in *. rewrite !flat_map_app, Hty, Hly.
    reflexivity.
  - intros e He.
    assert (Hinx : In (fst (tile_center hex_size (fst e))) (x0 :: xs)).
    { destruct He as [<- | He]; [now left | right].
      unfold xs. rewrite map_map. cbn [tile_pixel fst].
      exact (in_map (fun e => fst (tile_center hex_size (fst e))) _ _ He). }
    assert (Hiny : In (snd (tile_center hex_size (fst e))) (y0 :: ys)).
    { destruct He as [<- | He]; [now left | right].
      unfold ys. rewrite map_map. cbn [tile_pixel fst snd].
      exact (in_map (fun e => snd (tile_center hex_size (fst e))) _ _ He). }
    pose proof (py_min_le _ _ _ Hinx). pose proof (py_max_ge _ _ _ Hinx).
    pose proof (py_min_le _ _ _ Hiny). pose proof (py_max_ge _ _ _ Hiny).
    split; split; lra.
Qed.

(** X15. For a non-empty topology and a hex size that is not negative,
    one pair of x limits and one pair of y limits are set, and every
    corner of every hexagon drawn lies within them: the whole board is in
    view. *)
Theorem hexagons_within_limits (topology : list ((Z * Z * Z) * string))
    (title filename : string) (hex_size : R)
    (node_ids : option (Dict NodeKey Z))
    (Hvalid : valid_topology topology = true)
    (Hne : topology <> []) (Hsize : (0 <= hex_size)%R) :
  exists r xlo xhi ylo yhi,
    visualize_map topology title filename hex_size node_ids = inr r /\
    xlims (drawn r) = [(xlo, xhi)] /\
    ylims (drawn r) = [(ylo, yhi)] /\
    forall corners p,
      In corners (hexagons (drawn r)) -> In p corners ->
      (xlo <= fst p <= xhi)%R /\ (ylo <= snd p <= yhi)%R.
Proof.
  destruct (limits_cover_centres topology title filename hex_size node_ids
              Hvalid Hne)
    as [r [xlo [xhi [ylo [yhi [Hrun [Hx [Hy Hcentres]]]]]]]].
  destruct (visualize_map_observed topology title filename hex_size node_ids
              Hvalid) as [r' [Hrun' [Hhex _]]].
  rewrite Hrun in Hrun'. injection Hrun' as <-.
  exists r, xlo, xhi, ylo, yhi.
  split; [exact Hrun |]. split; [exact Hx |]. split; [exact Hy |].
  intros corners p Hcorners Hp. rewrite Hhex in Hcorners.
  apply in_map_iff in Hcorners. destruct Hcorners as [e [<- He]].
  destruct (corner_points_near _ _ _ Hsize Hp) as [[Hx1 Hx2] [Hy1 Hy2]].
  destruct (Hcentres e He) as [[Hcx1 Hcx2] [Hcy1 Hcy2]].
  split; split; lra.
Qed.

Lemma hexagons_within_limits_witness :
  exists r xlo xhi ylo yhi,
    visualize_map [((0, 0, 0)%Z, "Land"); ((1, -1, 0)%Z, "Water")] "t" "f" 1
      None = inr r /\
    xlims (drawn r) = [(xlo, xhi)] /\
    ylims (drawn r) = [(ylo, yhi)] /\
    forall corners p,
      In corners (hexagons (drawn r)) -> In p corners ->
      (xlo <= fst p <= xhi)%R /\ (ylo <= snd p <= yhi)%R.
Proof.
  apply (hexagons_within_limits [((0, 0, 0)%Z, "Land"); ((1, -1, 0)%Z, "Water")]
           "t" "f" 1 None).
  - reflexivity.
  - discriminate.
  - lra.
Defined.

Lemma count_kinds_le (topology : list ((Z * Z * Z) * string)) :
  (count_kind topology TileTemplate.LAND + count_kind topology TileTemplate.WATER
   + count_kind topology TileTemplate.PORT <= List.length topology)%nat /\
  ((forall e, In e topology ->
              In (snd e) [TileTemplate.LAND; TileTemplate.WATER; TileTemplate.PORT]) ->
   (count_kind topology TileTemplate.LAND + count_kind topology TileTemplate.WATER
    + count_kind topology TileTemplate.PORT = List.length topology)%nat).
Proof.
  unfold count_kind.
  induction topology as [| [coord kind] topology [IHle IHeq]];
    [split; reflexivity |].
  cbn [filter List.length snd].
  split.
  - destruct (String.eqb_spec kind TileTemplate.LAND) as [-> | HL];
      [cbn; lia |].
    destruct (String.eqb_spec kind TileTemplate.WATER) as [-> | HW];
      [cbn; lia |].
    destruct (String.eqb_spec kind TileTemplate.PORT) as [-> | HP];
      cbn; lia.
  - intros Hknown.
    assert (Hrest : forall e', In e' topology ->
              In (snd e') [TileTemplate.LAND; TileTemplate.WATER; TileTemplate.PORT])
      by (intros e' He'; apply Hknown; now right).
    specialize (IHeq Hrest).
    destruct (Hknown (coord, kind) (or_introl eq_refl)) as [H | [H | [H | []]]];
      cbn [snd] in H; subst kind; cbn; lia.
Qed.

(** X16. The statistics text agrees with the drawing: its node count is
    the number of labels drawn and its total is the number of tiles.  The
    three kind counts never exceed the total, and add up to it when every
    tile is Land, Water or Port (a tile of another kind is counted in the
    total only). *)
Theorem statistics_match_drawing (topology : list ((Z * Z * Z) * string))
    (title filename : string) (hex_size : R)
    (node_ids : option (Dict NodeKey Z))
    (Hvalid : valid_topology topology = true) :
  exists r,
    visualize_map topology title filename hex_size node_ids = inr r /\
    In (AxText 0.02 0.98
          (stats_text topology (List.length (node_labels (drawn r))))
          10 None true) (drawn r) /\
    List.length (hexagons (drawn r)) = List.length topology /\
    (count_kind topology "Land" + count_kind topology "Water"
     + count_kind topology "Port" <= List.length topology)%nat /\
    ((forall e, In e topology -> In (snd e) ["Land"; "Water"; "Port"]) ->
     (count_kind topology "Land" + count_kind topology "Water"
      + count_kind topology "Port" = List.length topology)%nat).
Proof.
  destruct (drawn_structure topology title filename hex_size node_ids Hvalid)
    as [r [Hrun Hdrawn]].
  destruct (visualize_map_observed topology title filename hex_size node_ids
              Hvalid) as [r' [Hrun' [Hhex [_ [Hlabels _]]]]].
  rewrite Hrun in Hrun'. injection Hrun' as <-.
  exists r. split; [exact Hrun |]. split; [| split].
  - rewrite Hlabels, length_map, Hdrawn. unfold closing_calls.
    apply in_or_app; right. apply in_or_app; right. apply in_or_app; right.
    apply in_or_app; right. right. right. now left.
  - now rewrite Hhex, length_map.
  - exact (count_kinds_le topology).
Qed.

Lemma statistics_match_drawing_witness :
  exists r,
    visualize_map [((0, 0, 0)%Z, "Land"); ((1, -1, 0)%Z, "Lava")] "t" "f" 1
      None = inr r /\
    List.length (hexagons (drawn r)) = 2%nat /\
    (count_kind [((0, 0, 0)%Z, "Land"); ((1, -1, 0)%Z, "Lava")] "Land"
     + count_kind [((0, 0, 0)%Z, "Land"); ((1, -1, 0)%Z, "Lava")] "Water"
     + count_kind [((0, 0, 0)%Z, "Land"); ((1, -1, 0)%Z, "Lava")] "Port" = 1)%nat.
Proof.
  destruct (statistics_match_drawing
              [((0, 0, 0)%Z, "Land"); ((1, -1, 0)%Z, "Lava")] "t" "f" 1 None
              eq_refl) as [r [Hrun [_ [Hhex _]]]].
  exists r. split; [exact Hrun |]. split; [exact Hhex | reflexivity].
Defined.

(* ================================================================= *)
(** ** Tables that agree with the geometry *)

Lemma lattice_point_injective (hex_size : R) (ab ab' : Z * Z) :
  hex_size <> 0%R ->
  lattice_point hex_size ab = lattice_point hex_size ab' -> ab = ab'.
Proof.
  intros Hsize. destruct ab as [a b], ab' as [a' b'].
  unfold lattice_point. cbn [fst snd]. intros [= Hx Hy].
  apply Rmult_eq_reg_l in Hx; [| exact Hsize].
  apply Rmult_eq_reg_l in Hy; [| exact Hsize].
  pose proof sqrt3_pos as Hpos.
  assert (Ha : (sqrt 3 * (IZR a - IZR a') = 0)%R) by lra.
  apply Rmult_integral in Ha. destruct Ha as [Ha | Ha]; [lra |].
  assert (Haa : IZR a = IZR a') by lra.
  assert (Hbb : IZR b = IZR b') by lra.
  apply eq_IZR in Haa, Hbb. now subst.
Qed.

Lemma separated_table_spec (table : Dict NodeKey Z) :
  separated_table table = true ->
  forall k1 id1 k2 id2 ab,
    In (k1, id1) table -> In (k2, id2) table ->
    lattice k1 = Some ab -> lattice k2 = Some ab -> id1 = id2.
Proof.
  unfold separated_table. rewrite forallb_forall.
  intros Hall k1 id1 k2 id2 [a b] H1 H2 Hl1 Hl2.
  specialize (Hall _ H1). rewrite forallb_forall in Hall.
  specialize (Hall _ H2). unfold separated_entries in Hall.
  cbn [fst snd] in Hall. rewrite Hl1, Hl2, !Z.eqb_refl in Hall.
  cbn [andb] in Hall. now apply Z.eqb_eq.
Qed.

Lemma consistent_mean (table : Dict NodeKey Z) (hex_size : R)
    (topology : list ((Z * Z * Z) * string)) (coord : Z * Z * Z)
    (tile_type node_ref : string) (id : Z) :
  consistent_table table = true ->
  table <> [] ->
  In (coord, tile_type) topology ->
  dict_get NodeKey_eqb table (coord, node_ref) = Some id ->
  exists ab,
    lattice (coord, node_ref) = Some ab /\
    corner_of hex_size coord node_ref = inr (lattice_point hex_size ab) /\
    mean_point (contributions table hex_size topology id)
    = lattice_point hex_size ab.
Proof.
  intros Hconsistent Hne Htile Hget.
  pose proof (truthy_of_nonempty table Hne) as Htruthy.
  destruct (consistent_rendering table hex_size topology Hconsistent Htruthy
              coord tile_type node_ref id Htile Hget)
    as [Href [Hmember [Hsame _]]].
  pose proof (dict_get_in NodeKey_eqb NodeKey_eqb_eq _ _ _ Hget) as Hentry.
  destruct (consistent_table_spec table Hconsistent _ _ _ Hentry Hentry)
    as [ab [Hab _]].
  exists ab. split; [exact Hab |].
  split; [now apply corner_of_lattice |].
  destruct (node_point_lattice hex_size coord node_ref ab Hab) as [_ <-].
  apply mean_point_constant; [| exact Hsame].
  intros Hnil. rewrite Hnil in Hmember. destruct Hmember.
Qed.

(** X18. When moreover the table gives different identifiers to different
    corners and the hex size is not zero, no two labels are drawn at the
    same position.  The built-in mini map is such a case. *)
Theorem separated_table_labels_apart
    (topology : list ((Z * Z * Z) * string)) (title filename : string)
    (hex_size : R) (table : Dict NodeKey Z)
    (Hvalid : valid_topology topology = true)
    (Hconsistent : consistent_table table = true)
    (Hseparated : separated_table table = true)
    (Hne : table <> []) (Hsize : hex_size <> 0%R) :
  exists r,
    visualize_map topology title filename hex_size (Some table) = inr r /\
    NoDup (map fst (node_labels (drawn r))).
Proof.
  destruct (rendered_labels topology title filename hex_size table Hvalid Hne)
    as [r [Hrun [Hlabels [Hnodup Hids]]]].
  exists r. split; [exact Hrun |].
  rewrite Hlabels, map_map. cbn [fst].
  apply NoDup_map_NoDup_ForallPairs; [| exact Hnodup].
  intros id1 id2 Hin1 Hin2 Heq.
  apply Hids in Hin1, Hin2.
  destruct Hin1 as [c1 [t1 [d1 [Htile1 [_ Hget1]]]]].
  destruct Hin2 as [c2 [t2 [d2 [Htile2 [_ Hget2]]]]].
  destruct (consistent_mean table hex_size topology c1 t1 d1 id1
              Hconsistent Hne Htile1 Hget1) as [ab1 [Hab1 [_ Hmean1]]].
  destruct (consistent_mean table hex_size topology c2 t2 d2 id2
              Hconsistent Hne Htile2 Hget2) as [ab2 [Hab2 [_ Hmean2]]].
  rewrite Hmean1, Hmean2 in Heq.
  apply (lattice_point_injective hex_size _ _ Hsize) in Heq. subst ab2.
  exact (separated_table_spec table Hseparated _ _ _ _ _
           (dict_get_in NodeKey_eqb NodeKey_eqb_eq _ _ _ Hget1)
           (dict_get_in NodeKey_eqb NodeKey_eqb_eq _ _ _ Hget2) Hab1 Hab2).
Qed.

Lemma separated_table_labels_apart_witness :
  exists r,
    visualize_map MINI_TOPOLOGY "Catan Mini Map" "catan_mini_map.png" 0.6
      (Some MINI_NODE_IDS) = inr r /\
    NoDup (map fst (node_labels (drawn r))).
Proof.
  apply (separated_table_labels_apart MINI_TOPOLOGY "Catan Mini Map"
           "catan_mini_map.png" 0.6 MINI_NODE_IDS).
  - vm_compute. reflexivity.
  - vm_compute. reflexivity.
  - vm_compute. reflexivity.
  - intros Hnil. vm_compute in Hnil. discriminate Hnil.
  - lra.
Defined.

(* ================================================================= *)
(** ** The script as a whole *)

Lemma rendering_summary (topology : list ((Z * Z * Z) * string))
    (title filename : string) (hex_size : R) (table : Dict NodeKey Z) :
  valid_topology topology = true ->
  table <> [] ->
  exists r,
    visualize_map topology title filename hex_size (Some table) = inr r /\
    List.length (hexagons (drawn r)) = List.length topology /\
    List.length (node_labels (drawn r))
    = List.length (label_ids table topology) /\
    saved_files (drawn r) = [filename].
Proof.
  intros Hvalid Hne.
  destruct (rendered_labels topology title filename hex_size table Hvalid Hne)
    as [r [Hrun [Hlabels _]]].
  destruct (visualize_map_observed topology title filename hex_size (Some table)
              Hvalid) as [r1 [Hrun1 [Hhex _]]].
  destruct (drawn_saved topology title filename hex_size (Some table) Hvalid)
    as [r2 [body [Hrun2 [Hshape Hbody]]]].
  rewrite Hrun in Hrun1, Hrun2.
  injection Hrun1 as <-. injection Hrun2 as <-.
  exists r. split; [exact Hrun |].
  split; [now rewrite Hhex, length_map |].
  split; [now rewrite Hlabels, length_map |].
  rewrite Hshape. unfold saved_files in *. rewrite flat_map_app, Hbody.
  reflexivity.
Qed.

(** X19. [main] returns without raising: both built-in topologies satisfy
    the zero-sum invariant.  It prints the opening message, renders the
    base map (37 hexagons, 96 node labels) and then the mini map (19
    hexagons, 54 node labels), saving [catan_base_map.png] and
    [catan_mini_map.png] in that order, and prints the closing message. *)
Theorem main_renders_both_maps :
  exists base mini,
    main = inr ([PrintLine "Generating Catan board visualizations..."]
                ++ drawn base ++ drawn mini ++ [PrintLine "Done!"]) /\
    List.length (hexagons (drawn base)) = 37%nat /\
    List.length (node_labels (drawn base)) = 96%nat /\
    saved_files (drawn base) = ["catan_base_map.png"] /\
    List.length (hexagons (drawn mini)) = 19%nat /\
    List.length (node_labels (drawn mini)) = 54%nat /\
    saved_files (drawn mini) = ["catan_mini_map.png"].
Proof.
  assert (Hbase_valid : valid_topology BASE_TOPOLOGY = true)
    by (vm_compute; reflexivity).
  assert (Hmini_valid : valid_topology MINI_TOPOLOGY = true)
    by (vm_compute; reflexivity).
  assert (Hbase_ne : BASE_NODE_IDS <> [])
    by (intros Hnil; vm_compute in Hnil; discriminate Hnil).
  assert (Hmini_ne : MINI_NODE_IDS <> [])
    by (intros Hnil; vm_compute in Hnil; discriminate Hnil).
  assert (Hbase_ids : List.length (label_ids BASE_NODE_IDS BASE_TOPOLOGY) = 96%nat)
    by (vm_compute; reflexivity).
  assert (Hmini_ids : List.length (label_ids MINI_NODE_IDS MINI_TOPOLOGY) = 54%nat)
    by (vm_compute; reflexivity).
  destruct (rendering_summary BASE_TOPOLOGY
              "Catan Base Map - Hexagonal Structure with Node IDs"
              "catan_base_map.png" 0.5 BASE_NODE_IDS Hbase_valid Hbase_ne)
    as [base [Hbase [Hbase_hex [Hbase_labels Hbase_saved]]]].
  destruct (rendering_summary MINI_TOPOLOGY
              "Catan Mini Map - Hexagonal Structure with Node IDs"
              "catan_mini_map.png" 0.6 MINI_NODE_IDS Hmini_valid Hmini_ne)
    as [mini [Hmini [Hmini_hex [Hmini_labels Hmini_saved]]]].
  exists base, mini.
  split.
  - unfold main. rewrite Hbase. unfold bind at 1. rewrite Hmini.
    unfold bind, ret. rewrite <- !app_assoc. reflexivity.
  - rewrite Hbase_hex, Hbase_labels, Hbase_ids, Hmini_hex, Hmini_labels,
      Hmini_ids.
    split; [reflexivity |]. split; [reflexivity |].
    split; [exact Hbase_saved |]. split; [reflexivity |].
    split; [reflexivity | exact Hmini_saved].
Qed.

(* ================================================================= *)
(** ** Labels are in view *)

Lemma sum_bounds (l : list R) (lo hi : R) :
  (forall x, In x l -> (lo <= x <= hi)%R) ->
  (INR (List.length l) * lo <= fold_right Rplus 0 l <= INR (List.length l) * hi)%R.
Proof.
  induction l as [| a l IH]; intros Hall.
  - cbn. lra.
  - cbn [fold_right List.length]. rewrite S_INR.
    destruct (Hall a (or_introl eq_refl)) as [Ha1 Ha2].
    destruct IH as [IH1 IH2]; [intros x Hx; apply Hall; now right |].
    lra.
Qed.

Lemma arithmetic_mean_bounds (l : list R) (lo hi : R) :
  l <> [] ->
  (forall x, In x l -> (lo <= x <= hi)%R) ->
  (lo <= arithmetic_mean l <= hi)%R.
Proof.
  intros Hne Hall. unfold arithmetic_mean.
  destruct (sum_bounds l lo hi Hall) as [H1 H2].
  assert (Hn : (0 < INR (List.length l))%R).
  { apply lt_0_INR. destruct l; [congruence | cbn; lia]. }
  split.
  - apply Rmult_le_reg_r with (r := INR (List.length l)); [exact Hn |].
    unfold Rdiv. rewrite Rmult_assoc, Rinv_l by lra. lra.
  - apply Rmult_le_reg_r with (r := INR (List.length l)); [exact Hn |].
    unfold Rdiv. rewrite Rmult_assoc, Rinv_l by lra. lra.
Qed.

Lemma node_point_in_corner_points (center : Point) (size : R) (node_ref : string) :
  In node_ref node_order -> In (node_point center size node_ref)
                               (corner_points center size).
Proof.
  intros Href. destruct (In_nth_error _ _ Href) as [k Hk].
  rewrite (node_point_polar center size k node_ref Hk).
  unfold corner_points.
  apply (in_map (fun k => polar center size (source_angle k))).
  apply in_seq. assert (Hlen : (k < List.length node_order)%nat)
    by (apply nth_error_Some; congruence).
  cbn in Hlen. lia.
Qed.

(** X20. For a hex size that is not negative and a non-empty table,
    every label drawn lies within the axis limits that are set: a label
    is at the mean of corners of hexagons that are in view. *)
Theorem labels_within_limits (topology : list ((Z * Z * Z) * string))
    (title filename : string) (hex_size : R) (table : Dict NodeKey Z)
    (Hvalid : valid_topology topology = true)
    (Hne : topology <> []) (Htable : table <> [])
    (Hsize : (0 <= hex_size)%R) :
  exists r xlo xhi ylo yhi,
    visualize_map topology title filename hex_size (Some table) = inr r /\
    xlims (drawn r) = [(xlo, xhi)] /\
    ylims (drawn r) = [(ylo, yhi)] /\
    forall p text,
      In (p, text) (node_labels (drawn r)) ->
      (xlo <= fst p <= xhi)%R /\ (ylo <= snd p <= yhi)%R.
Proof.
  destruct (limits_cover_centres topology title filename hex_size (Some table)
              Hvalid Hne)
    as [r [xlo [xhi [ylo [yhi [Hrun [Hx [Hy Hcentres]]]]]]]].
  destruct (rendered_labels topology title filename hex_size table Hvalid Htable)
    as [r1 [Hrun1 [Hlabels [_ Hids]]]].
  rewrite Hrun in Hrun1. injection Hrun1 as <-.
  exists r, xlo, xhi, ylo, yhi.
  split; [exact Hrun |]. split; [exact Hx |]. split; [exact Hy |].
  intros p text Hin. rewrite Hlabels in Hin. apply in_map_iff in Hin.
  destruct Hin as [id [Heq Hid]]. injection Heq as <- _.
  assert (Hnonempty : contributions table hex_size topology id <> [])
    by (apply contributions_nonempty; now apply Hids).
  assert (Hq : forall q, In q (contributions table hex_size topology id) ->
                 (xlo <= fst q <= xhi)%R /\ (ylo <= snd q <= yhi)%R).
  { intros q Hq. apply in_contributions in Hq.
    destruct Hq as [coord [t [node_ref [Htile [Href [_ ->]]]]]].
    destruct (corner_points_near _ _ _ Hsize
                (node_point_in_corner_points (tile_center hex_size coord)
                   hex_size node_ref Href)) as [[Hx1 Hx2] [Hy1 Hy2]].
    destruct (Hcentres (coord, t) Htile) as [[Hcx1 Hcx2] [Hcy1 Hcy2]].
    cbn [fst] in Hcx1, Hcx2, Hcy1, Hcy2.
    split; split; lra. }
  unfold mean_point. cbn [fst snd].
  split; apply arithmetic_mean_bounds;
    try (destruct (contributions table hex_size topology id);
         [congruence | discriminate]);
    intros x Hx'; apply in_map_iff in Hx'; destruct Hx' as [q [<- Hq']];
    now apply Hq.
Qed.

Lemma labels_within_limits_witness :
  exists r xlo xhi ylo yhi,
    visualize_map [((0, 0, 0)%Z, "Land"); ((0, 1, -1)%Z, "Water")] "t" "f" 1
      (Some [(((0, 0, 0)%Z, NodeRef.North), 0%Z);
             (((0, 1, -1)%Z, NodeRef.South), 0%Z)]) = inr r /\
    xlims (drawn r) = [(xlo, xhi)] /\
    ylims (drawn r) = [(ylo, yhi)] /\
    forall p text,
      In (p, text) (node_labels (drawn r)) ->
      (xlo <= fst p <= xhi)%R /\ (ylo <= snd p <= yhi)%R.
Proof.
  apply (labels_within_limits [((0, 0, 0)%Z, "Land"); ((0, 1, -1)%Z, "Water")]
           "t" "f" 1
           [(((0, 0, 0)%Z, NodeRef.North), 0%Z);
            (((0, 1, -1)%Z, NodeRef.South), 0%Z)]).
  - reflexivity.
  - discriminate.
  - discriminate.
  - lra.
Defined.
